(** * Privacy-preserving robotics: pattern memory and ephemeral identities

    A shallow embedding of [examples/pattern_memory_demo.py] and
    [examples/ephemeral_identity_demo.py], and the properties of the
    specification that concern them.

    Numeric model.  Python [float] values are read as real numbers ([R]):
    arithmetic is exact, [np.sqrt] is [sqrt], and the comparisons of the
    source are the decidable comparisons of [R].  Rounding, infinities and
    NaN are outside this model; "within floating tolerance" in the
    specification is read as equality of the exact values.  Python [int]
    values that are never mixed with floats are integers ([Z]).

    Containers.  A Python [dict] keeps its keys in insertion order; it is an
    association list with the operations of module [Dict].

    Exceptions.  A call either returns or raises; [outcome] carries the state
    of the mutated object in both cases.

    Clock.  [datetime.now()] is an argument [now] (microseconds, as the
    resolution of [datetime]); the readings taken during one call are the
    same instant.

    Randomness.  The draw of [secrets.token_hex(16)] is an argument [token].

    Feature records are values.  The source keeps the caller's
    [BehavioralFeatures] object in a new profile and updates it in place on
    later matches, so two profiles created from one object share their
    numeric features.  What is stated of a profile other than the one a call
    updates is therefore limited to what sharing cannot change: whether it is
    stored, its own fields and the labels of its features
    ([same_profile_fields]). *)

From Stdlib Require Import Reals Lra Lia ZArith List String Bool.
Import ListNotations.

Open Scope R_scope.

(** ** Python dictionaries *)

Module Dict.
Section WithValues.
Context {V : Type}.

Definition t := list (string * V).

Definition empty : t := [].

(** [d.get(k)] *)
Fixpoint get (k : string) (d : t) : option V :=
  match d with
  | [] => None
  | (k', v) :: d' => if String.eqb k k' then Some v else get k d'
  end.

(** [k in d] *)
Definition mem (k : string) (d : t) : bool :=
  match get k d with Some _ => true | None => false end.

(** [d[k] = v]: a present key keeps its place, a new key goes last. *)
Fixpoint set (k : string) (v : V) (d : t) : t :=
  match d with
  | [] => [(k, v)]
  | (k', v') :: d' =>
      if String.eqb k k' then (k, v) :: d' else (k', v') :: set k v d'
  end.

(** [del d[k]] (the key is present at every call site). *)
Fixpoint del (k : string) (d : t) : t :=
  match d with
  | [] => []
  | (k', v') :: d' => if String.eqb k k' then d' else (k', v') :: del k d'
  end.

Definition keys (d : t) : list string := map fst d.
Definition values (d : t) : list V := map snd d.

(** [for k in d: d[k] = f(d[k])] *)
Definition map_values (f : V -> V) (d : t) : t :=
  map (fun kv => (fst kv, f (snd kv))) d.
End WithValues.
Arguments t : clear implicits.
End Dict.

(** ** Outcomes of a call *)

Inductive exn := ZeroDivisionError.

Inductive outcome (A : Type) :=
| Returns (a : A)
| Raises (e : exn) (a : A).
Arguments Returns {A} a.
Arguments Raises {A} e a.

(** The object as the call left it, returned or raised. *)
Definition state_of {A : Type} (o : outcome A) : A :=
  match o with
  | Returns a => a
  | Raises _ a => a
  end.

(** [sum(xs)] over floats *)
Definition sum (xs : list R) : R := fold_left Rplus xs 0.

(** ** pattern_memory_demo.py *)

Module PatternMemory.

Record TemporalPattern := mkTemporal {
  active_hours_mean : R;
  active_hours_std : R;
  typical_duration_mean : R;
  typical_duration_std : R;
  frequency_per_day : R;
  pattern_stability : R;
  last_updated : Z;
  observation_count : R
}.

Record SpatialPattern := mkSpatial {
  zone_frequencies : Dict.t R;
  movement_speed_mean : R;
  movement_speed_std : R;
  zone_transitions : list ((string * string) * R)
}.

Record ActivityPattern := mkActivity {
  activity_type : string;
  temporal : TemporalPattern;
  spatial : SpatialPattern;
  success_rate : R;
  typical_assistance_needed : R
}.

(** The dataclass defaults. *)
Definition TemporalPattern_default (now : Z) : TemporalPattern :=
  mkTemporal 12 4 0 0 0 0 now 0.

Definition SpatialPattern_default : SpatialPattern :=
  mkSpatial Dict.empty 0 0 [].

Definition ActivityPattern_default (now : Z) (a : string) : ActivityPattern :=
  mkActivity a (TemporalPattern_default now) SpatialPattern_default 0 0.

Record store := mkStore {
  patterns : Dict.t ActivityPattern;
  decay_factor : R;
  total_observations : Z
}.

(** [PatternMemory(decay_factor)] *)
Definition init (decay : R) : store := mkStore Dict.empty decay 0.

(** One (mean, std) step of the exponential moving average, as written
    twice in [_update_temporal_pattern] and once in
    [_update_spatial_pattern]. *)
Definition ema_mean (alpha sample mean : R) : R :=
  alpha * sample + (1 - alpha) * mean.

Definition ema_std (alpha sample old_mean std : R) : R :=
  let diff := sample - old_mean in
  sqrt (alpha * (diff ^ 2) + (1 - alpha) * (std ^ 2)).

Definition _update_temporal_pattern (now : Z) (t : TemporalPattern)
    (hour duration : R) : TemporalPattern :=
  let alpha := 0.2 in
  let count := observation_count t + 1 in
  let hours :=
    if Req_dec_T count 1 then (hour, 0)
    else (ema_mean alpha hour (active_hours_mean t),
          ema_std alpha hour (active_hours_mean t) (active_hours_std t)) in
  let durations :=
    if Req_dec_T count 1 then (duration, 0)
    else (ema_mean alpha duration (typical_duration_mean t),
          ema_std alpha duration (typical_duration_mean t)
            (typical_duration_std t)) in
  mkTemporal (fst hours) (snd hours) (fst durations) (snd durations)
    (frequency_per_day t) (Rmin 1 (count / 20)) now count.

(** The zone counter after [zone_frequencies[zone] (+)= 1.0]. *)
Definition bump_zone (zone : string) (zf : Dict.t R) : Dict.t R :=
  match Dict.get zone zf with
  | None => Dict.set zone 1 zf
  | Some f => Dict.set zone (f + 1) zf
  end.

(** The division loop raises on its first entry when [total] is zero: the
    dictionary then still holds the counts before normalisation. *)
Definition _update_spatial_pattern (s : SpatialPattern) (zone : string)
    (speed : R) : outcome SpatialPattern :=
  let alpha := 0.2 in
  let zf := bump_zone zone (zone_frequencies s) in
  let total := sum (Dict.values zf) in
  if Req_dec_T total 0 then
    Raises ZeroDivisionError
      (mkSpatial zf (movement_speed_mean s) (movement_speed_std s)
         (zone_transitions s))
  else
    let zf' := Dict.map_values (fun f => f / total) zf in
    let speeds :=
      if Req_dec_T (movement_speed_mean s) 0 then (speed, 0)
      else (ema_mean alpha speed (movement_speed_mean s),
            ema_std alpha speed (movement_speed_mean s)
              (movement_speed_std s)) in
    Returns (mkSpatial zf' (fst speeds) (snd speeds) (zone_transitions s)).

Definition decay_pattern (d : R) (p : ActivityPattern) : ActivityPattern :=
  let t := temporal p in
  let s := spatial p in
  mkActivity (activity_type p)
    (mkTemporal (active_hours_mean t) (active_hours_std t)
       (typical_duration_mean t) (typical_duration_std t)
       (frequency_per_day t) (pattern_stability t * d) (last_updated t)
       (observation_count t * d))
    (mkSpatial (Dict.map_values (fun f => f * d) (zone_frequencies s))
       (movement_speed_mean s) (movement_speed_std s) (zone_transitions s))
    (success_rate p) (typical_assistance_needed p).

Definition _apply_decay (st : store) : store :=
  mkStore (Dict.map_values (decay_pattern (decay_factor st)) (patterns st))
    (decay_factor st) (total_observations st).

Definition get_pattern (st : store) (a : string) : option ActivityPattern :=
  Dict.get a (patterns st).

(** The pattern that [observe_activity] works on: the stored one, or the
    default it has just inserted. *)
Definition fetch (now : Z) (st : store) (a : string) : ActivityPattern :=
  match Dict.get a (patterns st) with
  | Some p => p
  | None => ActivityPattern_default now a
  end.

Definition with_parts (p : ActivityPattern) (t : TemporalPattern)
    (s : SpatialPattern) : ActivityPattern :=
  mkActivity (activity_type p) t s (success_rate p)
    (typical_assistance_needed p).

(** The store before the decay sweep, with the touched pattern [p']. *)
Definition put (st : store) (a : string) (p' : ActivityPattern) : store :=
  mkStore (Dict.set a p' (patterns st)) (decay_factor st)
    (total_observations st).

Definition observe_activity (st : store) (now : Z) (a : string)
    (hour duration_minutes : R) (zone : string) (movement_speed : R)
    : outcome store :=
  let pattern := fetch now st a in
  let t' := _update_temporal_pattern now (temporal pattern) hour
              duration_minutes in
  match _update_spatial_pattern (spatial pattern) zone movement_speed with
  | Raises e s' => Raises e (put st a (with_parts pattern t' s'))
  | Returns s' =>
      let st1 := _apply_decay (put st a (with_parts pattern t' s')) in
      Returns (mkStore (patterns st1) (decay_factor st1)
                 (total_observations st1 + 1)%Z)
  end.

Definition zscore (x mean std : R) : R :=
  if Rlt_dec 0 std then Rabs ((x - mean) / std) else 0.

Definition detect_anomaly (st : store) (a : string)
    (current_hour current_duration : R) : bool * R :=
  match get_pattern st a with
  | None => (false, 0)
  | Some pattern =>
      let t := temporal pattern in
      if Rlt_dec (observation_count t) 3 then (false, 0)
      else
        let hour_zscore :=
          zscore current_hour (active_hours_mean t) (active_hours_std t) in
        let duration_zscore :=
          zscore current_duration (typical_duration_mean t)
            (typical_duration_std t) in
        let deviation := Rmax hour_zscore duration_zscore in
        (if Rlt_dec 2 deviation then true else false, deviation)
  end.

(** A call of [observe_activity] as data, and a sequence of calls on one
    store; the sequence stops at the first call that raises. *)
Record observation := mkObs {
  o_now : Z;
  o_activity : string;
  o_hour : R;
  o_duration : R;
  o_zone : string;
  o_speed : R
}.

Definition observe (st : store) (o : observation) : outcome store :=
  observe_activity st (o_now o) (o_activity o) (o_hour o) (o_duration o)
    (o_zone o) (o_speed o).

Fixpoint observe_all (st : store) (os : list observation) : outcome store :=
  match os with
  | [] => Returns st
  | o :: os' =>
      match observe st o with
      | Returns st' => observe_all st' os'
      | Raises e st' => Raises e st'
      end
  end.

Definition zone_sum (p : ActivityPattern) : R :=
  sum (Dict.values (zone_frequencies (spatial p))).

(** Stores whose decay factor and zone frequencies are not negative: the
    stores that [PatternMemory(d)] with [0 <= d] and [observe_activity]
    build. *)
Definition freqs_nonneg (zf : Dict.t R) : Prop :=
  Forall (fun kv => 0 <= snd kv) zf.

Definition nonneg_store (st : store) : Prop :=
  0 <= decay_factor st /\
  Forall (fun kv => freqs_nonneg (zone_frequencies (spatial (snd kv))))
    (patterns st).

(** Standard deviations are never negative in a store built by
    [observe_activity]. *)
Definition stds_nonneg (p : ActivityPattern) : Prop :=
  0 <= active_hours_std (temporal p) /\
  0 <= typical_duration_std (temporal p) /\
  0 <= movement_speed_std (spatial p).

(** The z-score in the words of the specification: zero for a zero standard
    deviation, the distance from the mean in standard deviations otherwise. *)
Definition spec_zscore (x mean std : R) : R :=
  if Req_dec_T std 0 then 0 else Rabs (x - mean) / std.

(** The stores that [PatternMemory(d)] and returning [observe_activity]
    calls build. *)
Inductive built (d : R) : store -> Prop :=
| built_init : built d (init d)
| built_observe (st st' : store) (now : Z) (a : string) (hour dur : R)
    (z : string) (speed : R) :
    built d st ->
    observe_activity st now a hour dur z speed = Returns st' ->
    built d st'.

(** The decayed counter of a store with decay factor [d] below 1 stays
    between 0 and the fixed point [d / (1 - d)] of [c -> (c + 1) * d]. *)
Definition count_bounded (d : R) (p : ActivityPattern) : Prop :=
  0 <= observation_count (temporal p) <= d / (1 - d).

(** The learned means of a pattern lie in given ranges. *)
Definition means_within (hours durations speeds : R * R)
    (p : ActivityPattern) : Prop :=
  fst hours <= active_hours_mean (temporal p) <= snd hours /\
  fst durations <= typical_duration_mean (temporal p) <= snd durations /\
  fst speeds <= movement_speed_mean (spatial p) <= snd speeds.

(** What the decay sweep and the updates of other activity types leave
    alone in a pattern. *)
Definition same_learned (p p' : ActivityPattern) : Prop :=
  activity_type p' = activity_type p /\
  active_hours_mean (temporal p') = active_hours_mean (temporal p) /\
  active_hours_std (temporal p') = active_hours_std (temporal p) /\
  typical_duration_mean (temporal p') = typical_duration_mean (temporal p) /\
  typical_duration_std (temporal p') = typical_duration_std (temporal p) /\
  last_updated (temporal p') = last_updated (temporal p) /\
  movement_speed_mean (spatial p') = movement_speed_mean (spatial p) /\
  movement_speed_std (spatial p') = movement_speed_std (spatial p) /\
  Dict.keys (zone_frequencies (spatial p')) =
    Dict.keys (zone_frequencies (spatial p)).

End PatternMemory.

(** ** ephemeral_identity_demo.py *)

Module Identity.

(** [numpy] arrays of floats, with the elementwise operations used. *)
Definition vec := list R.

Fixpoint zip_with (f : R -> R -> R) (u v : vec) : vec :=
  match u, v with
  | x :: u', y :: v' => f x y :: zip_with f u' v'
  | _, _ => []
  end.

Definition vsub : vec -> vec -> vec := zip_with Rminus.
Definition vadd : vec -> vec -> vec := zip_with Rplus.
Definition vmul : vec -> vec -> vec := zip_with Rmult.
Definition vscale (c : R) (v : vec) : vec := map (Rmult c) v.

(** [np.linalg.norm] *)
Definition norm (v : vec) : R := sqrt (sum (map (fun x => x * x) v)).

Record BehavioralFeatures := mkFeatures {
  movement_speed : R;
  height_estimate : R;
  activity_time : string;
  interaction_zone : string;
  movement_pattern : string
}.

Definition time_encoding : Dict.t R :=
  [("morning", 0); ("afternoon", 1); ("evening", 2); ("night", 3)]%string.
Definition zone_encoding : Dict.t R :=
  [("kitchen", 0); ("living_room", 1); ("bedroom", 2); ("bathroom", 3)]%string.
Definition pattern_encoding : Dict.t R :=
  [("steady", 0); ("variable", 1); ("stationary", 2)]%string.

(** [enc.get(k, 0)] *)
Definition encode (enc : Dict.t R) (k : string) : R :=
  match Dict.get k enc with Some c => c | None => 0 end.

Definition to_vector (f : BehavioralFeatures) : vec :=
  [ movement_speed f; height_estimate f;
    encode time_encoding (activity_time f);
    encode zone_encoding (interaction_zone f);
    encode pattern_encoding (movement_pattern f) ].

Record EntityProfile := mkProfile {
  entity_id : string;
  first_observed : Z;
  last_seen : Z;
  observation_count : Z;
  typical_features : option BehavioralFeatures;
  confidence : R
}.

(** Microseconds in a day: [timedelta.days] is the floor of the difference
    divided by one day. *)
Definition day : Z := 86400000000.

Definition days_since (now : Z) (p : EntityProfile) : Z :=
  ((now - last_seen p) / day)%Z.

Definition is_expired (now : Z) (p : EntityProfile) (expiry_days : Z) : bool :=
  (days_since now p >? expiry_days)%Z.

Definition update (now : Z) (p : EntityProfile) (features : BehavioralFeatures)
    : EntityProfile :=
  let count := (observation_count p + 1)%Z in
  let conf := Rmin 1 (IZR count / 10) in
  let tf :=
    match typical_features p with
    | None => features
    | Some cur =>
        let alpha := 0.3 in
        let current_vec := to_vector cur in
        let new_vec := to_vector features in
        let updated_vec :=
          vadd (vscale alpha new_vec) (vscale (1 - alpha) current_vec) in
        mkFeatures (nth 0 updated_vec 0) (nth 1 updated_vec 0)
          (activity_time cur) (interaction_zone cur) (movement_pattern cur)
    end in
  mkProfile (entity_id p) (first_observed p) now count (Some tf) conf.

Record manager := mkManager {
  entities : Dict.t EntityProfile;
  similarity_threshold : R;
  expiry_days : Z
}.

(** [EphemeralIdentityManager(similarity_threshold, expiry_days)] *)
Definition init (threshold : R) (expiry : Z) : manager :=
  mkManager Dict.empty threshold expiry.

(** [token] is the draw of [secrets.token_hex(16)]. *)
Definition generate_entity_id (token : string) : string :=
  ("entity_" ++ token)%string.

Definition weights : vec := [2; 2; 1; 1; 1].

Definition calculate_similarity (features1 features2 : BehavioralFeatures)
    : R :=
  let vec1 := to_vector features1 in
  let vec2 := to_vector features2 in
  let diff := vmul (vsub vec1 vec2) weights in
  let distance := norm diff in
  let max_distance := 10 in
  Rmax 0 (1 - distance / max_distance).

(** The loop state of [find_matching_entity]:
    [(best_match_id, best_similarity)]. *)
Definition best := (option string * R)%type.

Definition scan_step (threshold : R) (expiry : Z) (now : Z)
    (features : BehavioralFeatures) (acc : best)
    (entry : string * EntityProfile) : best :=
  let profile := snd entry in
  if is_expired now profile expiry then acc
  else
    match typical_features profile with
    | None => acc
    | Some tf =>
        let similarity := calculate_similarity features tf in
        if Rlt_dec (snd acc) similarity then
          if Rlt_dec threshold similarity then (Some (fst entry), similarity)
          else acc
        else acc
    end.

Definition scan (threshold : R) (expiry : Z) (now : Z)
    (features : BehavioralFeatures) (es : Dict.t EntityProfile) (acc : best)
    : best :=
  fold_left (scan_step threshold expiry now features) es acc.

Definition find_matching_entity (m : manager) (now : Z)
    (features : BehavioralFeatures) : option string :=
  fst (scan (similarity_threshold m) (expiry_days m) now features
         (entities m) (None, 0)).

(** Truth value of a string in [if entity_id:]. *)
Definition truthy (s : string) : bool := negb (String.eqb s "").

Definition with_entities (m : manager) (es : Dict.t EntityProfile) : manager :=
  mkManager es (similarity_threshold m) (expiry_days m).

Definition new_profile (now : Z) (eid : string) (features : BehavioralFeatures)
    : EntityProfile :=
  mkProfile eid now now 1 (Some features) 0.1.

Definition detect_new (m : manager) (now : Z) (token : string)
    (features : BehavioralFeatures) : manager * (string * bool) :=
  let eid := generate_entity_id token in
  (with_entities m (Dict.set eid (new_profile now eid features) (entities m)),
   (eid, true)).

Definition detect_entity (m : manager) (now : Z) (token : string)
    (features : BehavioralFeatures) : manager * (string * bool) :=
  match find_matching_entity m now features with
  | Some eid =>
      if truthy eid then
        match Dict.get eid (entities m) with
        | Some profile =>
            (with_entities m
               (Dict.set eid (update now profile features) (entities m)),
             (eid, false))
        | None => (m, (eid, false))
        end
      else detect_new m now token features
  | None => detect_new m now token features
  end.

Definition cleanup_expired_entities (m : manager) (now : Z)
    : manager * nat :=
  let expired :=
    map fst
      (filter (fun e => is_expired now (snd e) (expiry_days m))
         (entities m)) in
  (with_entities m (fold_left (fun es eid => Dict.del eid es) expired
                      (entities m)),
   List.length expired).

Definition get_entity_info (m : manager) (eid : string)
    : option EntityProfile :=
  Dict.get eid (entities m).

(** The square of the weighted distance, written out. *)
Definition sq_distance (a b : BehavioralFeatures) : R :=
  let va := to_vector a in
  let vb := to_vector b in
  sum (map (fun x => x * x) (vmul (vsub va vb) weights)).

(** The candidates of [find_matching_entity]: profiles that are not expired
    and have features to compare with. *)
Definition eligible (m : manager) (now : Z) (p : EntityProfile) : bool :=
  negb (is_expired now p (expiry_days m)) &&
  match typical_features p with Some _ => true | None => false end.

Definition similarity_to (features : BehavioralFeatures) (p : EntityProfile)
    : R :=
  match typical_features p with
  | Some tf => calculate_similarity features tf
  | None => 0
  end.

(** The selection in the words of the specification: the entry [(eid, p)]
    is a candidate whose similarity strictly exceeds the threshold and is
    the highest among the candidates, the first one in insertion order
    among equals. *)
Definition selected (m : manager) (now : Z) (features : BehavioralFeatures)
    (eid : string) (p : EntityProfile) : Prop :=
  exists before after,
    entities m = (before ++ (eid, p) :: after)%list /\
    eligible m now p = true /\
    similarity_threshold m < similarity_to features p /\
    (forall e, In e before -> eligible m now (snd e) = true ->
       similarity_to features (snd e) < similarity_to features p) /\
    (forall e, In e after -> eligible m now (snd e) = true ->
       similarity_to features (snd e) <= similarity_to features p).

Definition no_candidate (m : manager) (now : Z)
    (features : BehavioralFeatures) : Prop :=
  forall e, In e (entities m) -> eligible m now (snd e) = true ->
    similarity_to features (snd e) <= similarity_threshold m.

(** Dictionary keys are distinct, and the ids in use are non-empty strings,
    as every generated id is. *)
Definition keys_ok (m : manager) : Prop :=
  NoDup (Dict.keys (entities m)) /\
  Forall (fun k => truthy k = true) (Dict.keys (entities m)).

(** The registries that the public operations build. *)
Inductive reachable : manager -> Prop :=
| reach_init (threshold : R) (expiry : Z) : reachable (init threshold expiry)
| reach_detect (m : manager) (now : Z) (token : string)
    (features : BehavioralFeatures) :
    reachable m -> reachable (fst (detect_entity m now token features))
| reach_cleanup (m : manager) (now : Z) :
    reachable m -> reachable (fst (cleanup_expired_entities m now)).

(** [tracks eid n m]: the last [n] calls of [detect_entity] that led to [m]
    all resolved to [eid], the first of them creating it. *)
Inductive tracks (eid : string) : nat -> manager -> Prop :=
| tracks_new (m m' : manager) (now : Z) (token : string)
    (features : BehavioralFeatures) :
    detect_entity m now token features = (m', (eid, true)) ->
    tracks eid 1 m'
| tracks_match (n : nat) (m m' : manager) (now : Z) (token : string)
    (features : BehavioralFeatures) :
    tracks eid n m ->
    detect_entity m now token features = (m', (eid, false)) ->
    tracks eid (S n) m'.

(** What a call leaves alone in a profile that it does not update.  The
    numeric features are left out: the source updates the record of the
    matched profile in place, and another profile created from the same
    object sees the change. *)
Definition same_labels (f f' : option BehavioralFeatures) : Prop :=
  match f, f' with
  | None, None => True
  | Some a, Some b =>
      activity_time b = activity_time a /\
      interaction_zone b = interaction_zone a /\
      movement_pattern b = movement_pattern a
  | _, _ => False
  end.

Definition same_profile_fields (q q' : option EntityProfile) : Prop :=
  match q, q' with
  | None, None => True
  | Some p, Some p' =>
      entity_id p' = entity_id p /\
      first_observed p' = first_observed p /\
      last_seen p' = last_seen p /\
      observation_count p' = observation_count p /\
      confidence p' = confidence p /\
      same_labels (typical_features p) (typical_features p')
  | _, _ => False
  end.

(** [rematched eid n m]: a call of [detect_entity] created [eid], and the
    [n] calls after it, which led to [m], all matched it. *)
Inductive rematched (eid : string) : nat -> manager -> Prop :=
| rematched_created (m m' : manager) (now : Z) (token : string)
    (features : BehavioralFeatures) :
    detect_entity m now token features = (m', (eid, true)) ->
    rematched eid 0 m'
| rematched_again (n : nat) (m m' : manager) (now : Z) (token : string)
    (features : BehavioralFeatures) :
    rematched eid n m ->
    detect_entity m now token features = (m', (eid, false)) ->
    rematched eid (S n) m'.

Definition confidence_ok (p : EntityProfile) : Prop :=
  confidence p = Rmin 1 (IZR (observation_count p) / 10) /\
  (1 <= observation_count p)%Z.

End Identity.

(** * Properties *)

(** ** Dictionaries and sums *)

Section DictFacts.
Context {V : Type}.
Implicit Types (d : Dict.t V) (k : string) (v : V).

Lemma dict_get_set_same k v d : Dict.get k (Dict.set k v d) = Some v.
Proof.
  induction d as [|[k' v'] d IH]; simpl.
  - now rewrite String.eqb_refl.
  - destruct (String.eqb k k') eqn:E; simpl; rewrite ?String.eqb_refl, ?E; auto.
Qed.

Lemma dict_get_set_other k k' v d :
  k' <> k -> Dict.get k' (Dict.set k v d) = Dict.get k' d.
Proof.
  intros Hne. induction d as [|[k0 v0] d IH]; simpl.
  - apply String.eqb_neq in Hne. now rewrite Hne.
  - destruct (String.eqb k k0) eqn:E; simpl.
    + apply String.eqb_eq in E. subst k0.
      apply String.eqb_neq in Hne. now rewrite Hne.
    + now rewrite IH.
Qed.

Lemma dict_get_map_values (f : V -> V) k d :
  Dict.get k (Dict.map_values f d) = option_map f (Dict.get k d).
Proof.
  induction d as [|[k' v'] d IH]; simpl; auto.
  destruct (String.eqb k k'); auto.
Qed.

Lemma dict_get_In k v d : Dict.get k d = Some v -> In (k, v) d.
Proof.
  induction d as [|[k' v'] d IH]; simpl; [discriminate|].
  destruct (String.eqb k k') eqn:E.
  - apply String.eqb_eq in E. intros [= ->]. subst. now left.
  - auto.
Qed.

Lemma dict_get_None_keys k d : Dict.get k d = None <-> ~ In k (Dict.keys d).
Proof.
  induction d as [|[k' v'] d IH]; simpl.
  - tauto.
  - destruct (String.eqb k k') eqn:E.
    + apply String.eqb_eq in E. subst. split; [discriminate | tauto].
    + apply String.eqb_neq in E. rewrite IH. split; [intros H [?|?] | ]; intuition congruence.
Qed.

Lemma dict_In_get k v d :
  NoDup (Dict.keys d) -> In (k, v) d -> Dict.get k d = Some v.
Proof.
  induction d as [|[k' v'] d IH]; simpl; [tauto|].
  intros Hnd [[= -> ->]|Hin].
  - now rewrite String.eqb_refl.
  - inversion Hnd as [|? ? Hnot Hnd']; subst.
    destruct (String.eqb k k') eqn:E.
    + apply String.eqb_eq in E. subst. exfalso. apply Hnot.
      change k' with (fst (k', v)). now apply in_map.
    + auto.
Qed.

Lemma dict_set_absent k v d :
  Dict.get k d = None -> Dict.set k v d = (d ++ [(k, v)])%list.
Proof.
  induction d as [|[k' v'] d IH]; simpl; auto.
  destruct (String.eqb k k'); [discriminate|].
  intros H. now rewrite IH.
Qed.

Lemma dict_set_present k v v0 d :
  Dict.get k d = Some v0 ->
  exists d1 d2, d = (d1 ++ (k, v0) :: d2)%list /\
                Dict.set k v d = (d1 ++ (k, v) :: d2)%list /\
                ~ In k (Dict.keys d1).
Proof.
  induction d as [|[k' v'] d IH]; simpl; [discriminate|].
  destruct (String.eqb k k') eqn:E.
  - apply String.eqb_eq in E. subst. intros [= ->].
    exists [], d. simpl. auto.
  - intros H. destruct (IH H) as (d1 & d2 & -> & -> & Hn).
    exists ((k', v') :: d1), d2. simpl. repeat split; auto.
    apply String.eqb_neq in E. intros [?|?]; [congruence | tauto].
Qed.

Lemma dict_keys_set_present k v v0 d :
  Dict.get k d = Some v0 -> Dict.keys (Dict.set k v d) = Dict.keys d.
Proof.
  intros H. destruct (dict_set_present k v v0 d H) as (d1 & d2 & -> & -> & _).
  unfold Dict.keys. now rewrite !map_app.
Qed.

Lemma dict_set_nonempty k v d : Dict.set k v d <> [].
Proof. destruct d as [|[k' v'] d]; simpl; [|destruct (String.eqb k k')]; discriminate. Qed.
End DictFacts.

Lemma dict_Forall_set {V : Type} (P : V -> Prop) (k : string) (v : V)
    (d : Dict.t V) :
  P v -> Forall (fun kv => P (snd kv)) d ->
  Forall (fun kv => P (snd kv)) (Dict.set k v d).
Proof.
  intros Hv. induction 1 as [|[k' v'] d Hv' Hd IH]; simpl.
  - constructor; [exact Hv | constructor].
  - destruct (String.eqb k k'); constructor; auto.
Qed.

Lemma dict_Forall_get {V : Type} (P : V -> Prop) (k : string) (v : V)
    (d : Dict.t V) :
  Forall (fun kv => P (snd kv)) d -> Dict.get k d = Some v -> P v.
Proof.
  intros Hd Hget. apply dict_get_In in Hget.
  rewrite Forall_forall in Hd. exact (Hd _ Hget).
Qed.

Lemma sum_from (xs : list R) (a : R) : fold_left Rplus xs a = a + sum xs.
Proof.
  unfold sum. revert a. induction xs as [|x xs IH]; intros a; simpl.
  - lra.
  - rewrite IH, (IH (0 + x)). lra.
Qed.

Lemma sum_cons (x : R) (xs : list R) : sum (x :: xs) = x + sum xs.
Proof. unfold sum at 1. simpl. rewrite sum_from. lra. Qed.

Lemma sum_nil : sum [] = 0.
Proof. reflexivity. Qed.

Lemma sum_app (xs ys : list R) : sum (xs ++ ys) = sum xs + sum ys.
Proof.
  induction xs as [|x xs IH]; simpl.
  - rewrite sum_nil. lra.
  - rewrite !sum_cons, IH. lra.
Qed.

Lemma sum_nonneg (xs : list R) : Forall (fun x => 0 <= x) xs -> 0 <= sum xs.
Proof.
  induction 1 as [|x xs Hx _ IH].
  - rewrite sum_nil. lra.
  - rewrite sum_cons. lra.
Qed.

Lemma sum_values_map (f : R -> R) (c : R) (zf : Dict.t R) :
  (forall x, f x = x * c) ->
  sum (Dict.values (Dict.map_values f zf)) = sum (Dict.values zf) * c.
Proof.
  intros Hf. unfold Dict.values, Dict.map_values.
  induction zf as [|[k x] zf IH]; simpl.
  - rewrite sum_nil. lra.
  - rewrite !sum_cons, IH, Hf. lra.
Qed.

(** ** Pattern memory *)

Module PatternMemoryFacts.
Import PatternMemory.

Lemma sum_set_absent (z : string) (x : R) (zf : Dict.t R) :
  Dict.get z zf = None ->
  sum (Dict.values (Dict.set z x zf)) = sum (Dict.values zf) + x.
Proof.
  intros H. rewrite (dict_set_absent _ _ _ H). unfold Dict.values.
  rewrite map_app, sum_app. simpl. rewrite sum_cons, sum_nil. lra.
Qed.

Lemma sum_set_present (z : string) (x x0 : R) (zf : Dict.t R) :
  Dict.get z zf = Some x0 ->
  sum (Dict.values (Dict.set z x zf)) = sum (Dict.values zf) - x0 + x.
Proof.
  intros H. destruct (dict_set_present z x x0 zf H) as (d1 & d2 & -> & -> & _).
  unfold Dict.values. rewrite !map_app, !sum_app. simpl.
  rewrite !sum_cons. lra.
Qed.

Lemma bump_zone_sum (z : string) (zf : Dict.t R) :
  sum (Dict.values (bump_zone z zf)) = sum (Dict.values zf) + 1.
Proof.
  unfold bump_zone. destruct (Dict.get z zf) as [f|] eqn:E.
  - rewrite (sum_set_present _ _ _ _ E). lra.
  - now rewrite sum_set_absent.
Qed.

Lemma bump_zone_nonempty (z : string) (zf : Dict.t R) : bump_zone z zf <> [].
Proof. unfold bump_zone. destruct (Dict.get z zf); apply dict_set_nonempty. Qed.

Lemma freqs_nonneg_set (z : string) (x : R) (zf : Dict.t R) :
  0 <= x -> freqs_nonneg zf -> freqs_nonneg (Dict.set z x zf).
Proof.
  intros Hx. unfold freqs_nonneg.
  induction 1 as [|[k v] zf Hv Hzf IH]; simpl.
  - constructor; [exact Hx | constructor].
  - destruct (String.eqb z k); constructor; auto.
Qed.

Lemma freqs_nonneg_get (z : string) (x : R) (zf : Dict.t R) :
  freqs_nonneg zf -> Dict.get z zf = Some x -> 0 <= x.
Proof.
  intros Hzf Hget. apply dict_get_In in Hget.
  unfold freqs_nonneg in Hzf. rewrite Forall_forall in Hzf.
  exact (Hzf _ Hget).
Qed.

Lemma freqs_nonneg_bump (z : string) (zf : Dict.t R) :
  freqs_nonneg zf -> freqs_nonneg (bump_zone z zf).
Proof.
  intros H. unfold bump_zone. destruct (Dict.get z zf) as [f|] eqn:E.
  - apply freqs_nonneg_set; auto. pose proof (freqs_nonneg_get _ _ _ H E). lra.
  - apply freqs_nonneg_set; auto. lra.
Qed.

Lemma freqs_nonneg_sum (zf : Dict.t R) :
  freqs_nonneg zf -> 0 <= sum (Dict.values zf).
Proof.
  intros H. apply sum_nonneg. unfold Dict.values.
  rewrite Forall_map. exact H.
Qed.

Lemma freqs_nonneg_scale (c : R) (zf : Dict.t R) :
  0 <= c -> freqs_nonneg zf ->
  freqs_nonneg (Dict.map_values (fun f => f * c) zf).
Proof.
  intros Hc H. unfold freqs_nonneg, Dict.map_values in *.
  rewrite Forall_map. simpl. eapply Forall_impl; [|exact H].
  simpl. intros kv Hkv. now apply Rmult_le_pos.
Qed.

Lemma freqs_nonneg_div (c : R) (zf : Dict.t R) :
  0 < c -> freqs_nonneg zf ->
  freqs_nonneg (Dict.map_values (fun f => f / c) zf).
Proof.
  intros Hc H. unfold freqs_nonneg, Dict.map_values in *.
  rewrite Forall_map. simpl. eapply Forall_impl; [|exact H].
  simpl. intros kv Hkv. apply Rmult_le_pos; [exact Hkv|].
  left. now apply Rinv_0_lt_compat.
Qed.

(** [_update_spatial_pattern] returns exactly when the bumped counters do
    not sum to zero, and then the frequencies sum to one. *)
Lemma update_spatial_returns (s : SpatialPattern) (z : string) (speed : R) :
  sum (Dict.values (zone_frequencies s)) + 1 <> 0 ->
  exists s', _update_spatial_pattern s z speed = Returns s'.
Proof.
  intros H. unfold _update_spatial_pattern.
  destruct (Req_dec_T _ 0) as [E|E].
  - rewrite bump_zone_sum in E. contradiction.
  - eexists. reflexivity.
Qed.

Lemma update_spatial_zones (s s' : SpatialPattern) (z : string) (speed : R) :
  _update_spatial_pattern s z speed = Returns s' ->
  let total := sum (Dict.values (zone_frequencies s)) + 1 in
  total <> 0 /\
  zone_frequencies s' =
    Dict.map_values (fun f => f / total) (bump_zone z (zone_frequencies s)).
Proof.
  unfold _update_spatial_pattern.
  destruct (Req_dec_T _ 0) as [E|E]; [discriminate|].
  intros [= <-]. simpl. rewrite bump_zone_sum in E. split; [exact E|].
  now rewrite bump_zone_sum.
Qed.

Lemma update_spatial_sum (s s' : SpatialPattern) (z : string) (speed : R) :
  _update_spatial_pattern s z speed = Returns s' ->
  zone_frequencies s' <> [] /\ sum (Dict.values (zone_frequencies s')) = 1.
Proof.
  intros H. destruct (update_spatial_zones _ _ _ _ H) as [Ht ->]. split.
  - pose proof (bump_zone_nonempty z (zone_frequencies s)) as Hne.
    destruct (bump_zone z (zone_frequencies s)); [congruence | discriminate].
  - rewrite (sum_values_map _ (/ (sum (Dict.values (zone_frequencies s)) + 1)))
      by (intros; reflexivity).
    rewrite bump_zone_sum. now apply Rinv_r.
Qed.

(** What a returning [observe_activity] leaves in the store. *)
Lemma observe_activity_returns_inv (st st' : store) (now : Z) (a : string)
    (hour dur : R) (z : string) (speed : R) :
  observe_activity st now a hour dur z speed = Returns st' ->
  exists s',
    _update_spatial_pattern (spatial (fetch now st a)) z speed = Returns s' /\
    patterns st' =
      Dict.map_values (decay_pattern (decay_factor st))
        (Dict.set a
           (with_parts (fetch now st a)
              (_update_temporal_pattern now (temporal (fetch now st a))
                 hour dur) s')
           (patterns st)) /\
    decay_factor st' = decay_factor st /\
    total_observations st' = (total_observations st + 1)%Z.
Proof.
  unfold observe_activity.
  destruct (_update_spatial_pattern _ z speed) as [s'|e s']; [|discriminate].
  intros [= <-]. exists s'. simpl. auto.
Qed.

Lemma observe_activity_touched (st st' : store) (now : Z) (a : string)
    (hour dur : R) (z : string) (speed : R) :
  observe_activity st now a hour dur z speed = Returns st' ->
  exists s',
    _update_spatial_pattern (spatial (fetch now st a)) z speed = Returns s' /\
    get_pattern st' a =
      Some (decay_pattern (decay_factor st)
              (with_parts (fetch now st a)
                 (_update_temporal_pattern now (temporal (fetch now st a))
                    hour dur) s')).
Proof.
  intros H. destruct (observe_activity_returns_inv _ _ _ _ _ _ _ _ H)
    as (s' & Hs & Hp & _). exists s'. split; [exact Hs|].
  unfold get_pattern. rewrite Hp, dict_get_map_values, dict_get_set_same.
  reflexivity.
Qed.

Lemma observe_activity_untouched (st st' : store) (now : Z) (a b : string)
    (hour dur : R) (z : string) (speed : R) :
  observe_activity st now a hour dur z speed = Returns st' ->
  b <> a ->
  get_pattern st' b =
    option_map (decay_pattern (decay_factor st)) (get_pattern st b).
Proof.
  intros H Hne. destruct (observe_activity_returns_inv _ _ _ _ _ _ _ _ H)
    as (s' & _ & Hp & _).
  unfold get_pattern. now rewrite Hp, dict_get_map_values, dict_get_set_other.
Qed.

Lemma fetch_freqs_nonneg (st : store) (now : Z) (a : string) :
  nonneg_store st ->
  freqs_nonneg (zone_frequencies (spatial (fetch now st a))).
Proof.
  intros [_ H]. unfold fetch. destruct (Dict.get a (patterns st)) eqn:E.
  - exact (dict_Forall_get
             (fun p => freqs_nonneg (zone_frequencies (spatial p))) _ _ _ H E).
  - simpl. constructor.
Qed.

(** On a store without negative frequencies the call returns, and the
    store it leaves has none either. *)
Lemma observe_activity_nonneg (st : store) (now : Z) (a : string)
    (hour dur : R) (z : string) (speed : R) :
  nonneg_store st ->
  exists st',
    observe_activity st now a hour dur z speed = Returns st' /\
    nonneg_store st'.
Proof.
  intros Hst. pose proof (fetch_freqs_nonneg st now a Hst) as Hf.
  pose proof (freqs_nonneg_sum _ Hf) as Hsum.
  destruct (update_spatial_returns (spatial (fetch now st a)) z speed)
    as [s' Hs]; [lra|].
  unfold observe_activity. rewrite Hs. eexists. split; [reflexivity|].
  destruct Hst as [Hd Hall]. split; simpl; [exact Hd|].
  unfold Dict.map_values. rewrite Forall_map. simpl.
  apply (dict_Forall_set
           (fun p => freqs_nonneg
                       (Dict.map_values (fun f => f * decay_factor st)
                          (zone_frequencies (spatial p))))).
  - simpl. apply freqs_nonneg_scale; [exact Hd|].
    destruct (update_spatial_zones _ _ _ _ Hs) as [_ ->].
    apply freqs_nonneg_div; [lra|]. now apply freqs_nonneg_bump.
  - eapply Forall_impl; [|exact Hall]. simpl. intros kv Hkv.
    now apply freqs_nonneg_scale.
Qed.

Lemma observe_all_nonneg (os : list observation) (st : store) :
  nonneg_store st ->
  exists st', observe_all st os = Returns st' /\ nonneg_store st'.
Proof.
  revert st. induction os as [|o os IH]; intros st Hst; simpl.
  - eauto.
  - unfold observe.
    destruct (observe_activity_nonneg st (o_now o) (o_activity o) (o_hour o)
                (o_duration o) (o_zone o) (o_speed o) Hst) as (st1 & -> & H1).
    exact (IH st1 H1).
Qed.

Lemma observe_all_decay_factor (os : list observation) (st st' : store) :
  observe_all st os = Returns st' -> decay_factor st' = decay_factor st.
Proof.
  revert st. induction os as [|o os IH]; intros st; simpl.
  - now intros [= <-].
  - unfold observe.
    destruct (observe_activity st _ _ _ _ _ _) as [st1|] eqn:E; [|discriminate].
    intros H. rewrite (IH _ H).
    now destruct (observe_activity_returns_inv _ _ _ _ _ _ _ _ E)
      as (_ & _ & _ & -> & _).
Qed.

Lemma nonneg_init (d : R) : 0 <= d -> nonneg_store (init d).
Proof. intros H. split; [exact H | constructor]. Qed.

(** The zone frequencies of the touched pattern sum to the decay factor
    when the call returns. *)
Lemma observe_activity_zone_sum (st st' : store) (now : Z) (a : string)
    (hour dur : R) (z : string) (speed : R) :
  observe_activity st now a hour dur z speed = Returns st' ->
  exists p,
    get_pattern st' a = Some p /\
    zone_frequencies (spatial p) <> [] /\
    zone_sum p = decay_factor st.
Proof.
  intros H. destruct (observe_activity_touched _ _ _ _ _ _ _ _ H)
    as (s' & Hs & Hp).
  eexists. split; [exact Hp|].
  destruct (update_spatial_sum _ _ _ _ Hs) as [Hne Hsum].
  unfold zone_sum. simpl. split.
  - destruct (zone_frequencies s'); [congruence | discriminate].
  - rewrite (sum_values_map _ (decay_factor st)) by (intros; reflexivity).
    rewrite Hsum. lra.
Qed.

(** The decisions on reals met when a call is evaluated on given numbers. *)
Ltac absurd_R := try (exfalso; cbn in *; lra).

Ltac decide_R :=
  match goal with
  | |- context [Req_dec_T ?a ?b] =>
      destruct (Req_dec_T a b); [absurd_R | absurd_R]
  | |- context [Rlt_dec ?a ?b] =>
      destruct (Rlt_dec a b); [absurd_R | absurd_R]
  end.

Ltac run_observe :=
  cbv [observe_all observe observe_activity init fetch put _apply_decay
       _update_spatial_pattern _update_temporal_pattern decay_pattern
       with_parts get_pattern sum bump_zone
       TemporalPattern_default ActivityPattern_default
       SpatialPattern_default];
  cbn; repeat (decide_R; cbn).

(** C1, as stated, fails on the first observation of a fresh store with the
    default decay factor: the frequencies are normalised and then decayed in
    the same call, so they sum to 0.95 and not to 1. *)
Lemma C1_counterexample :
  exists st' p,
    observe_activity (init 0.95) 0 "x" 7.5 25 "kitchen" 1.2 = Returns st' /\
    get_pattern st' "x" = Some p /\
    zone_frequencies (spatial p) = [("kitchen"%string, 0.95)] /\
    zone_sum p = 0.95 /\
    Rabs (zone_sum p - 1) = 0.05.
Proof.
  eexists. eexists. split; [run_observe; reflexivity|].
  split; [reflexivity|]. cbn.
  assert (E : 1 / (0 + 1) * 0.95 = 0.95) by lra.
  rewrite E. split; [reflexivity|].
  unfold zone_sum, sum. cbn.
  split; [lra|].
  unfold Rabs. destruct (Rcase_abs _); lra.
Qed.

(** C1 (amended): for every store whose decay factor and zone frequencies
    are not negative, and every non-empty sequence of [observe_activity]
    calls for one activity type, every call returns, and after the last one
    that activity's [zone_frequencies] is non-empty and its values sum to
    the store's [decay_factor] (normalised to 1, then decayed once). *)
Theorem C1_zone_frequencies_sum_to_decay_factor
    (st : store) (a : string) (os : list observation) :
  nonneg_store st ->
  os <> [] ->
  Forall (fun o => o_activity o = a) os ->
  exists st' p,
    observe_all st os = Returns st' /\
    get_pattern st' a = Some p /\
    zone_frequencies (spatial p) <> [] /\
    zone_sum p = decay_factor st.
Proof.
  intros Hst Hne Hall. revert st Hst.
  induction Hall as [|o os Ho Hos IH]; [congruence|]. clear Hne.
  intros st Hst. simpl. unfold observe.
  destruct (observe_activity_nonneg st (o_now o) (o_activity o) (o_hour o)
              (o_duration o) (o_zone o) (o_speed o) Hst) as (st1 & E1 & H1).
  rewrite E1. destruct os as [|o' os'].
  - simpl. destruct (observe_activity_zone_sum _ _ _ _ _ _ _ _ E1)
      as (p & Hp & Hz & Hs).
    exists st1, p. subst a. auto.
  - destruct (IH ltac:(discriminate) st1 H1) as (st' & p & E & Hp & Hz & Hs).
    exists st', p. repeat split; auto.
    rewrite Hs.
    now destruct (observe_activity_returns_inv _ _ _ _ _ _ _ _ E1)
      as (_ & _ & _ & -> & _).
Qed.

Lemma C1_witness :
  exists st' p,
    observe_all (init 0.95)
      [mkObs 0 "cooking" 12 30 "kitchen" 1.2;
       mkObs 1 "cooking" 12 30 "dining_room" 1] = Returns st' /\
    get_pattern st' "cooking" = Some p /\
    zone_frequencies (spatial p) <> [] /\
    zone_sum p = 0.95.
Proof.
  apply (C1_zone_frequencies_sum_to_decay_factor (init 0.95) "cooking"
           [mkObs 0 "cooking" 12 30 "kitchen" 1.2;
            mkObs 1 "cooking" 12 30 "dining_room" 1]).
  - apply nonneg_init. lra.
  - discriminate.
  - repeat constructor.
Defined.

(** After [k] returning calls for other activity types an untouched
    pattern's counter is its initial value times [d ^ k]. *)
Lemma observe_all_untouched_count (os : list observation) (st st' : store)
    (a : string) (p : ActivityPattern) :
  get_pattern st a = Some p ->
  Forall (fun o => o_activity o <> a) os ->
  observe_all st os = Returns st' ->
  exists p',
    get_pattern st' a = Some p' /\
    observation_count (temporal p') =
      observation_count (temporal p) * decay_factor st ^ List.length os.
Proof.
  intros Hp Hall. revert st p Hp.
  induction Hall as [|o os Ho Hos IH]; intros st p Hp; simpl.
  - intros [= <-]. exists p. split; [exact Hp | lra].
  - unfold observe.
    destruct (observe_activity st _ _ _ _ _ _) as [st1|] eqn:E1;
      [|discriminate].
    intros Hrest.
    assert (H1 : get_pattern st1 a = Some (decay_pattern (decay_factor st) p)).
    { rewrite (observe_activity_untouched _ _ _ _ a _ _ _ _ E1), Hp; auto. }
    destruct (IH st1 _ H1 Hrest) as (p' & Hp' & Hc).
    exists p'. split; [exact Hp'|]. rewrite Hc. simpl.
    destruct (observe_activity_returns_inv _ _ _ _ _ _ _ _ E1)
      as (_ & _ & _ & -> & _). lra.
Qed.

(** C4: a returning [observe_activity] call multiplies the counter, the
    stability and every zone frequency of every stored pattern by
    [decay_factor], exactly once: the patterns of other activity types
    relative to their stored values, the touched pattern relative to the
    values its update has just written.  On stores without negative
    frequencies every call returns.  Hence an untouched pattern's counter
    after [k] calls for other types is [initial * d ^ k], and on a fresh
    store with decay factor 0.95 the call
    [observe_activity("x", 7.5, 25.0, "kitchen", 1.2)] leaves counter 0.95,
    mean hour 7.5 and standard deviation 0. *)
Theorem C4_global_decay_once_per_call :
  (forall st now a hour dur z speed,
     nonneg_store st ->
     exists st', observe_activity st now a hour dur z speed = Returns st') /\
  (forall st st' now a hour dur z speed,
     observe_activity st now a hour dur z speed = Returns st' ->
     let d := decay_factor st in
     (forall b p, b <> a -> get_pattern st b = Some p ->
        exists p',
          get_pattern st' b = Some p' /\
          observation_count (temporal p') = observation_count (temporal p) * d /\
          pattern_stability (temporal p') = pattern_stability (temporal p) * d /\
          zone_frequencies (spatial p') =
            Dict.map_values (fun f => f * d) (zone_frequencies (spatial p))) /\
     (forall b, b <> a -> get_pattern st b = None -> get_pattern st' b = None) /\
     (exists p',
        let old := fetch now st a in
        let count := observation_count (temporal old) + 1 in
        let total := zone_sum old + 1 in
        get_pattern st' a = Some p' /\
        observation_count (temporal p') = count * d /\
        pattern_stability (temporal p') = Rmin 1 (count / 20) * d /\
        zone_frequencies (spatial p') =
          Dict.map_values (fun f => f * d)
            (Dict.map_values (fun f => f / total)
               (bump_zone z (zone_frequencies (spatial old)))))) /\
  (forall st st' a p os,
     get_pattern st a = Some p ->
     Forall (fun o => o_activity o <> a) os ->
     observe_all st os = Returns st' ->
     exists p',
       get_pattern st' a = Some p' /\
       observation_count (temporal p') =
         observation_count (temporal p) * decay_factor st ^ List.length os) /\
  (forall now,
     exists st' p,
       observe_activity (init 0.95) now "x" 7.5 25 "kitchen" 1.2
         = Returns st' /\
       get_pattern st' "x" = Some p /\
       observation_count (temporal p) = 0.95 /\
       active_hours_mean (temporal p) = 7.5 /\
       active_hours_std (temporal p) = 0).
Proof.
  split; [|split; [|split]].
  - intros st now a hour dur z speed Hst.
    destruct (observe_activity_nonneg st now a hour dur z speed Hst)
      as (st' & E & _). eauto.
  - intros st st' now a hour dur z speed E d. split; [|split].
    + intros b p Hne Hp. exists (decay_pattern d p). split.
      * rewrite (observe_activity_untouched _ _ _ _ b _ _ _ _ E Hne), Hp.
        reflexivity.
      * simpl. auto.
    + intros b Hne Hb.
      rewrite (observe_activity_untouched _ _ _ _ b _ _ _ _ E Hne), Hb.
      reflexivity.
    + destruct (observe_activity_touched _ _ _ _ _ _ _ _ E) as (s' & Hs & Hp).
      eexists. cbv zeta. split; [exact Hp|]. simpl.
      destruct (update_spatial_zones _ _ _ _ Hs) as [_ ->]. auto.
  - intros st st' a p os. apply observe_all_untouched_count.
  - intros now. eexists. eexists. split; [run_observe; reflexivity|].
    split; [reflexivity|]. cbn. repeat split; lra.
Qed.

Lemma C4_witness :
  let tea :=
    mkActivity "tea" (mkTemporal 16 1 10 2 0 0.2 0 4)
      (mkSpatial [("kitchen"%string, 1)] 1 0 []) 0 0 in
  let st := mkStore [("tea"%string, tea)] 0.5 0 in
  let os := [mkObs 1 "nap" 14 60 "bedroom" 0.25;
             mkObs 2 "walk" 9 30 "garden" 1] in
  exists st' p',
    observe_all st os = Returns st' /\
    get_pattern st' "tea" = Some p' /\
    observation_count (temporal p') = 4 * 0.5 ^ 2.
Proof.
  intros tea st os.
  destruct (observe_all_nonneg os st) as (st' & E & _).
  { split; simpl; [lra|]. repeat constructor. simpl. lra. }
  exists st'.
  destruct C4_global_decay_once_per_call as (_ & _ & Hk & _).
  destruct (Hk st st' "tea"%string tea os) as (p' & Hp & Hc).
  - reflexivity.
  - repeat constructor; discriminate.
  - exact E.
  - exists p'. auto.
Defined.

(** C2, as stated, fails: a call with hour 25 returns and updates the
    store; the source has no validation of its arguments. *)
Lemma C2_counterexample :
  exists st' p,
    observe_activity (init 0.95) 0 "x" 25 30 "kitchen" 1 = Returns st' /\
    total_observations st' = 1%Z /\
    get_pattern st' "x" = Some p /\
    active_hours_mean (temporal p) = 25 /\
    patterns st' <> patterns (init 0.95).
Proof.
  eexists. eexists. split; [run_observe; reflexivity|].
  cbn. repeat split; try reflexivity. discriminate.
Qed.

(** C2 (amended): [observe_activity] validates nothing.  For every store
    whose decay factor and zone frequencies are not negative and for every
    hour, duration and speed, in or out of the contract, the call returns,
    increments [total_observations], and folds the given values into the
    running means of the pattern as it does for any other input. *)
Theorem C2_observe_activity_accepts_any_input
    (st : store) (now : Z) (a : string) (hour dur : R) (z : string)
    (speed : R) :
  nonneg_store st ->
  exists st' p',
    observe_activity st now a hour dur z speed = Returns st' /\
    total_observations st' = (total_observations st + 1)%Z /\
    get_pattern st' a = Some p' /\
    let old := fetch now st a in
    let first := Req_dec_T (observation_count (temporal old) + 1) 1 in
    active_hours_mean (temporal p') =
      (if first then hour
       else ema_mean 0.2 hour (active_hours_mean (temporal old))) /\
    typical_duration_mean (temporal p') =
      (if first then dur
       else ema_mean 0.2 dur (typical_duration_mean (temporal old))) /\
    movement_speed_mean (spatial p') =
      (if Req_dec_T (movement_speed_mean (spatial old)) 0 then speed
       else ema_mean 0.2 speed (movement_speed_mean (spatial old))).
Proof.
  intros Hst.
  destruct (observe_activity_nonneg st now a hour dur z speed Hst)
    as (st' & E & _).
  destruct (observe_activity_returns_inv _ _ _ _ _ _ _ _ E)
    as (s' & Hs & _ & _ & Ht).
  destruct (observe_activity_touched _ _ _ _ _ _ _ _ E) as (s'' & Hs' & Hp).
  rewrite Hs in Hs'. injection Hs' as <-.
  eexists. eexists. split; [exact E|]. split; [exact Ht|].
  split; [exact Hp|]. cbv zeta. simpl.
  unfold _update_spatial_pattern in Hs.
  destruct (Req_dec_T (sum _) 0); [discriminate|].
  injection Hs as <-. simpl.
  destruct (Req_dec_T (observation_count _ + 1) 1);
    destruct (Req_dec_T (movement_speed_mean _) 0); simpl; auto.
Qed.

Lemma C2_witness :
  exists st' p',
    observe_activity (init 0.95) 0 "x" (-3) (-5) "kitchen" (-1)
      = Returns st' /\
    total_observations st' = 1%Z /\
    get_pattern st' "x" = Some p' /\
    active_hours_mean (temporal p') = -3 /\
    typical_duration_mean (temporal p') = -5 /\
    movement_speed_mean (spatial p') = -1.
Proof.
  destruct (C2_observe_activity_accepts_any_input (init 0.95) 0 "x"
              (-3) (-5) "kitchen" (-1)) as (st' & p' & E & Ht & Hp & H).
  - apply nonneg_init. lra.
  - exists st', p'. split; [exact E|]. split; [exact Ht|].
    split; [exact Hp|]. cbv zeta in H. cbn in H.
    destruct (Req_dec_T (0 + 1) 1); [|exfalso; lra].
    destruct (Req_dec_T 0 0); [|exfalso; lra].
    exact H.
Defined.

Lemma ema_std_nonneg (alpha sample old_mean std : R) :
  0 <= ema_std alpha sample old_mean std.
Proof. unfold ema_std. apply sqrt_pos. Qed.

Lemma update_temporal_stds (now : Z) (t : TemporalPattern) (hour dur : R) :
  0 <= active_hours_std (_update_temporal_pattern now t hour dur) /\
  0 <= typical_duration_std (_update_temporal_pattern now t hour dur).
Proof.
  unfold _update_temporal_pattern. simpl.
  destruct (Req_dec_T _ 1); simpl; split;
    try apply ema_std_nonneg; lra.
Qed.

Lemma update_spatial_std (s : SpatialPattern) (z : string) (speed : R) :
  0 <= movement_speed_std s ->
  0 <= movement_speed_std (state_of (_update_spatial_pattern s z speed)).
Proof.
  intros H. unfold _update_spatial_pattern.
  destruct (Req_dec_T (sum _) 0); simpl; [exact H|].
  destruct (Req_dec_T (movement_speed_mean s) 0); simpl;
    [lra | apply ema_std_nonneg].
Qed.

(** Standard deviations stay non-negative through every call, returning or
    raising; they are 0 or a square root. *)
Lemma observe_activity_stds_nonneg (st : store) (now : Z) (a : string)
    (hour dur : R) (z : string) (speed : R) :
  Forall (fun kv => stds_nonneg (snd kv)) (patterns st) ->
  Forall (fun kv => stds_nonneg (snd kv))
    (patterns (state_of (observe_activity st now a hour dur z speed))).
Proof.
  intros Hall.
  assert (Hold : 0 <= movement_speed_std (spatial (fetch now st a))).
  { unfold fetch. destruct (Dict.get a (patterns st)) eqn:E.
    - apply (dict_Forall_get stds_nonneg _ _ _ Hall E).
    - simpl. lra. }
  pose proof (update_spatial_std _ z speed Hold) as Hs.
  pose proof (update_temporal_stds now (temporal (fetch now st a)) hour dur)
    as [Hh Hd].
  unfold observe_activity.
  destruct (_update_spatial_pattern _ z speed) as [s'|e s']; simpl in *.
  - unfold Dict.map_values. rewrite Forall_map. simpl.
    apply (dict_Forall_set
             (fun p => stds_nonneg (decay_pattern (decay_factor st) p))).
    + repeat split; simpl; assumption.
    + eapply Forall_impl; [|exact Hall]. intros kv Hkv. exact Hkv.
  - apply (dict_Forall_set stds_nonneg); [|exact Hall].
    repeat split; simpl; assumption.
Qed.

Lemma zscore_spec (x mean std : R) :
  0 <= std -> zscore x mean std = spec_zscore x mean std.
Proof.
  intros H. unfold zscore, spec_zscore.
  destruct (Rlt_dec 0 std), (Req_dec_T std 0); try lra.
  unfold Rdiv. rewrite Rabs_mult, (Rabs_pos_eq (/ std)); [reflexivity|].
  left. now apply Rinv_0_lt_compat.
Qed.

Lemma zscore_at_mean (mean std : R) : zscore mean mean std = 0.
Proof.
  unfold zscore. destruct (Rlt_dec 0 std); [|reflexivity].
  replace ((mean - mean) / std) with 0 by (unfold Rdiv; lra).
  apply Rabs_R0.
Qed.

Lemma zscore_three_sigma (x mean std : R) :
  0 < std -> Rabs (x - mean) = 3 * std -> zscore x mean std = 3.
Proof.
  intros Hs Hx. unfold zscore. destruct (Rlt_dec 0 std); [|lra].
  unfold Rdiv. rewrite Rabs_mult, Hx, (Rabs_pos_eq (/ std)).
  - field. lra.
  - left. now apply Rinv_0_lt_compat.
Qed.

(** C5: [detect_anomaly] returns [(false, 0)] for an absent pattern and for
    a decayed count below 3; otherwise the deviation is the larger of the
    two z-scores, each zero for a zero standard deviation, and the flag says
    whether it exceeds 2.  A query three standard deviations from the mean
    in one dimension, at the mean in the other, is anomalous with deviation
    3.  The standard deviations of stored patterns are never negative. *)
Theorem C5_detect_anomaly :
  (forall st a h d, get_pattern st a = None ->
     detect_anomaly st a h d = (false, 0)) /\
  (forall st a p h d, get_pattern st a = Some p ->
     observation_count (temporal p) < 3 ->
     detect_anomaly st a h d = (false, 0)) /\
  (forall st a p h d, get_pattern st a = Some p ->
     3 <= observation_count (temporal p) ->
     stds_nonneg p ->
     let t := temporal p in
     let deviation :=
       Rmax (spec_zscore h (active_hours_mean t) (active_hours_std t))
            (spec_zscore d (typical_duration_mean t)
               (typical_duration_std t)) in
     snd (detect_anomaly st a h d) = deviation /\
     (fst (detect_anomaly st a h d) = true <-> deviation > 2)) /\
  (forall st a p h d, get_pattern st a = Some p ->
     3 <= observation_count (temporal p) ->
     let t := temporal p in
     (0 < active_hours_std t /\
      Rabs (h - active_hours_mean t) = 3 * active_hours_std t /\
      d = typical_duration_mean t) \/
     (0 < typical_duration_std t /\
      Rabs (d - typical_duration_mean t) = 3 * typical_duration_std t /\
      h = active_hours_mean t) ->
     detect_anomaly st a h d = (true, 3)) /\
  (forall st now a hour dur z speed,
     Forall (fun kv => stds_nonneg (snd kv)) (patterns st) ->
     Forall (fun kv => stds_nonneg (snd kv))
       (patterns (state_of (observe_activity st now a hour dur z speed)))).
Proof.
  split; [|split; [|split; [|split]]].
  - intros st a h d H. unfold detect_anomaly. now rewrite H.
  - intros st a p h d H Hc. unfold detect_anomaly. rewrite H.
    destruct (Rlt_dec _ 3); [reflexivity | contradiction].
  - intros st a p h d H Hc (Hh & Hd & _) t deviation.
    unfold detect_anomaly. rewrite H.
    destruct (Rlt_dec _ 3) as [Hlt|_]; [lra|].
    subst deviation t. cbv zeta.
    rewrite (zscore_spec _ _ _ Hh), (zscore_spec _ _ _ Hd).
    set (deviation := Rmax _ _). simpl. split; [reflexivity|].
    destruct (Rlt_dec 2 deviation); split; intros; try lra; auto; discriminate.
  - intros st a p h d H Hc t Hq. unfold detect_anomaly. rewrite H.
    destruct (Rlt_dec _ 3) as [Hlt|_]; [lra|]. fold t.
    assert (E : Rmax (zscore h (active_hours_mean t) (active_hours_std t))
                  (zscore d (typical_duration_mean t)
                     (typical_duration_std t)) = 3).
    { destruct Hq as [(Hs & Hx & ->)|(Hs & Hx & ->)].
      - rewrite zscore_at_mean, (zscore_three_sigma _ _ _ Hs Hx).
        apply Rmax_left. lra.
      - rewrite zscore_at_mean, (zscore_three_sigma _ _ _ Hs Hx).
        apply Rmax_right. lra. }
    rewrite E. destruct (Rlt_dec 2 3); [reflexivity | lra].
  - apply observe_activity_stds_nonneg.
Qed.

Lemma C5_witness :
  let p :=
    mkActivity "breakfast" (mkTemporal 7.5 0.5 25 0 0 0.2 0 4)
      (mkSpatial [("kitchen"%string, 0.98)] 1.2 0 []) 0 0 in
  let st := mkStore [("breakfast"%string, p)] 0.98 5 in
  detect_anomaly st "breakfast" 9 25 = (true, 3) /\
  detect_anomaly st "lunch" 9 25 = (false, 0).
Proof.
  intros p st.
  destruct C5_detect_anomaly as (Habsent & _ & _ & Hsigma & _). split.
  - apply (Hsigma st "breakfast"%string p 9 25).
    + reflexivity.
    + simpl. lra.
    + left. simpl. split; [lra|]. split; [|reflexivity].
      unfold Rabs. destruct (Rcase_abs _); lra.
  - apply Habsent. reflexivity.
Defined.

(** C7 at the failing input: a first sample of speed 0 and a second of
    speed 1.  The speed accumulator takes a zero mean for "no sample yet",
    so the second sample is stored as if it were the first (mean 1, std 0),
    where the update rule gives mean 0.2 and std sqrt 0.2.  The hour
    accumulator, which tests the observation count, follows the rule on the
    same two calls. *)
Theorem C7_speed_accumulator_restarts_on_zero_mean :
  exists st' p,
    observe_all (init 0.95)
      [mkObs 0 "x" 0 25 "kitchen" 0; mkObs 1 "x" 1 25 "kitchen" 1]
      = Returns st' /\
    get_pattern st' "x" = Some p /\
    movement_speed_mean (spatial p) = 1 /\
    movement_speed_std (spatial p) = 0 /\
    ema_mean 0.2 1 0 = 0.2 /\
    0 < ema_std 0.2 1 0 0 /\
    active_hours_mean (temporal p) = ema_mean 0.2 1 0 /\
    active_hours_std (temporal p) = ema_std 0.2 1 0 0.
Proof.
  eexists. eexists. split; [run_observe; reflexivity|].
  split; [reflexivity|]. cbn.
  split; [reflexivity|]. split; [reflexivity|].
  split; [unfold ema_mean; lra|].
  split; [|split; reflexivity].
  unfold ema_std. apply sqrt_lt_R0. lra.
Qed.

End PatternMemoryFacts.

(** ** Ephemeral identities *)

Module IdentityFacts.
Import Identity.

Lemma calculate_similarity_unfold (a b : BehavioralFeatures) :
  calculate_similarity a b = Rmax 0 (1 - sqrt (sq_distance a b) / 10).
Proof. reflexivity. Qed.

Lemma sq_distance_self (a : BehavioralFeatures) : sq_distance a a = 0.
Proof. unfold sq_distance, sum. cbn. lra. Qed.

Lemma sq_distance_sym (a b : BehavioralFeatures) :
  sq_distance a b = sq_distance b a.
Proof. unfold sq_distance, sum. cbn. ring. Qed.

Lemma similarity_bounds (a b : BehavioralFeatures) :
  0 <= calculate_similarity a b <= 1.
Proof.
  rewrite calculate_similarity_unfold. split.
  - apply Rmax_l.
  - apply Rmax_lub; [lra|].
    pose proof (sqrt_pos (sq_distance a b)). lra.
Qed.

Lemma similarity_self (a : BehavioralFeatures) : calculate_similarity a a = 1.
Proof.
  rewrite calculate_similarity_unfold, sq_distance_self, sqrt_0.
  replace (1 - 0 / 10) with 1 by lra. apply Rmax_right. lra.
Qed.

(** C10: the similarity is [max(0, 1 - ||(a - b) * w|| / 10)] with weights
    [2, 2, 1, 1, 1]; it is 1 on equal arguments, symmetric, and lies between
    0 and 1. *)
Theorem C10_similarity_properties :
  (forall a b,
     calculate_similarity a b =
       Rmax 0 (1 - norm (vmul (vsub (to_vector a) (to_vector b))
                           [2; 2; 1; 1; 1]) / 10)) /\
  (forall a, calculate_similarity a a = 1) /\
  (forall a b, calculate_similarity a b = calculate_similarity b a) /\
  (forall a b, 0 <= calculate_similarity a b <= 1).
Proof.
  split; [|split; [|split]].
  - reflexivity.
  - apply similarity_self.
  - intros a b. rewrite !calculate_similarity_unfold.
    now rewrite sq_distance_sym.
  - apply similarity_bounds.
Qed.

(** *** Expiry *)

Lemma is_expired_iff (now : Z) (p : EntityProfile) (expiry : Z) :
  is_expired now p expiry = true <->
  ((expiry + 1) * day <= now - last_seen p)%Z.
Proof.
  unfold is_expired, days_since. rewrite Z.gtb_lt.
  assert (Hd : (0 < day)%Z) by reflexivity. split; intros H.
  - assert (H1 : (expiry + 1 <= (now - last_seen p) / day)%Z) by lia.
    pose proof (Z.mul_div_le (now - last_seen p) day Hd). nia.
  - apply Z.lt_le_pred. simpl.
    replace (Z.pred ((now - last_seen p) / day))%Z
      with ((now - last_seen p) / day - 1)%Z by lia.
    assert ((expiry + 1 <= (now - last_seen p) / day)%Z); [|lia].
    apply Z.div_le_lower_bound; lia.
Qed.

Lemma is_expired_false_iff (now : Z) (p : EntityProfile) (expiry : Z) :
  is_expired now p expiry = false <->
  (now - last_seen p < (expiry + 1) * day)%Z.
Proof.
  rewrite <- Bool.not_true_iff_false, is_expired_iff. lia.
Qed.

(** *** Deleting keys from a dictionary with distinct keys *)

Lemma filter_all {A : Type} (f : A -> bool) (l : list A) :
  (forall x, In x l -> f x = true) -> filter f l = l.
Proof.
  induction l as [|x l IH]; simpl; intros H; [reflexivity|].
  rewrite (H x (or_introl eq_refl)), IH; auto.
Qed.

Lemma filter_twice {A : Type} (f g : A -> bool) (l : list A) :
  filter f (filter g l) = filter (fun x => g x && f x) l.
Proof.
  induction l as [|x l IH]; simpl; [reflexivity|].
  destruct (g x); simpl; [destruct (f x)|]; now rewrite IH.
Qed.

Lemma keys_filter_incl {V : Type} (f : string * V -> bool) (d : Dict.t V)
    (k : string) :
  In k (Dict.keys (filter f d)) -> In k (Dict.keys d).
Proof.
  unfold Dict.keys. rewrite !in_map_iff.
  intros (e & He & Hin). apply filter_In in Hin. exists e. tauto.
Qed.

Lemma NoDup_keys_filter {V : Type} (f : string * V -> bool) (d : Dict.t V) :
  NoDup (Dict.keys d) -> NoDup (Dict.keys (filter f d)).
Proof.
  induction d as [|[k v] d IH]; simpl; intros H; [constructor|].
  inversion H as [|? ? Hn Hd]; subst.
  destruct (f (k, v)); simpl; auto.
  constructor; auto. intros Hin. apply Hn.
  exact (keys_filter_incl f d k Hin).
Qed.

Lemma dict_del_filter {V : Type} (k : string) (d : Dict.t V) :
  NoDup (Dict.keys d) ->
  Dict.del k d = filter (fun e => negb (String.eqb k (fst e))) d.
Proof.
  induction d as [|[k' v] d IH]; simpl; intros H; [reflexivity|].
  inversion H as [|? ? Hn Hd]; subst.
  destruct (String.eqb k k') eqn:E; simpl.
  - apply String.eqb_eq in E. subst k'. symmetry. apply filter_all.
    intros [k1 v1] Hin. simpl. apply negb_true_iff, String.eqb_neq.
    intros ->. apply Hn. change k1 with (fst (k1, v1)). now apply in_map.
  - now rewrite IH.
Qed.

Lemma dict_del_all_filter {V : Type} (ks : list string) (d : Dict.t V) :
  NoDup (Dict.keys d) ->
  fold_left (fun es k => Dict.del k es) ks d =
    filter (fun e => negb (existsb (fun k => String.eqb k (fst e)) ks)) d.
Proof.
  revert d. induction ks as [|k ks IH]; intros d H; simpl.
  - symmetry. now apply filter_all.
  - rewrite (dict_del_filter k d H), IH by now apply NoDup_keys_filter.
    rewrite filter_twice. apply filter_ext. intros e.
    now rewrite negb_orb.
Qed.

Lemma NoDup_keys_unique {V : Type} (d : Dict.t V) (e e' : string * V) :
  NoDup (Dict.keys d) -> In e d -> In e' d -> fst e = fst e' -> e = e'.
Proof.
  intros Hnd He He' Hk. destruct e as [k v], e' as [k' v']. simpl in Hk.
  subst k'. f_equal.
  pose proof (dict_In_get _ _ _ Hnd He) as H1.
  pose proof (dict_In_get _ _ _ Hnd He') as H2. congruence.
Qed.

(** [cleanup_expired_entities] keeps exactly the entries that are not
    expired, in their order. *)
Lemma cleanup_entities (m : manager) (now : Z) :
  NoDup (Dict.keys (entities m)) ->
  entities (fst (cleanup_expired_entities m now)) =
    filter (fun e => negb (is_expired now (snd e) (expiry_days m)))
      (entities m).
Proof.
  intros Hnd. unfold cleanup_expired_entities. simpl.
  rewrite (dict_del_all_filter _ _ Hnd).
  apply filter_ext_in. intros e He. f_equal.
  destruct (is_expired now (snd e) (expiry_days m)) eqn:E.
  - apply existsb_exists. exists (fst e). split; [|apply String.eqb_refl].
    apply in_map. apply filter_In. auto.
  - apply Bool.not_true_iff_false. intros Hex.
    apply existsb_exists in Hex. destruct Hex as (k & Hk & Heq).
    apply String.eqb_eq in Heq. apply in_map_iff in Hk.
    destruct Hk as (e' & Hfst & Hin). apply filter_In in Hin.
    destruct Hin as [Hin Hexp].
    assert (e' = e) by (apply (NoDup_keys_unique _ _ _ Hnd Hin He); congruence).
    subst e'. congruence.
Qed.

(** C9: with [expiry_days = 30] a profile last seen exactly 30 days ago is
    not expired and one last seen 31 days ago is; the elapsed days are the
    floor of the elapsed time in days.  [cleanup_expired_entities] removes
    exactly the profiles whose elapsed days exceed [expiry_days], keeps the
    others unchanged and in order, and returns the number removed. *)
Theorem C9_expiry_boundary_and_cleanup :
  (forall now p,
     last_seen p = (now - 30 * day)%Z -> is_expired now p 30 = false) /\
  (forall now p,
     last_seen p = (now - 31 * day)%Z -> is_expired now p 30 = true) /\
  (forall now p expiry,
     (days_since now p * day <= now - last_seen p
        < (days_since now p + 1) * day)%Z /\
     (is_expired now p expiry = true <-> (days_since now p > expiry)%Z)) /\
  (forall m now,
     NoDup (Dict.keys (entities m)) ->
     let expired e := is_expired now (snd e) (expiry_days m) in
     entities (fst (cleanup_expired_entities m now)) =
       filter (fun e => negb (expired e)) (entities m) /\
     snd (cleanup_expired_entities m now) =
       List.length (filter expired (entities m)) /\
     similarity_threshold (fst (cleanup_expired_entities m now)) =
       similarity_threshold m /\
     expiry_days (fst (cleanup_expired_entities m now)) = expiry_days m).
Proof.
  split; [|split; [|split]].
  - intros now p H. apply is_expired_false_iff. rewrite H. unfold day. lia.
  - intros now p H. apply is_expired_iff. rewrite H. unfold day. lia.
  - intros now p expiry. split.
    + unfold days_since.
      pose proof (Z.div_mod (now - last_seen p) day ltac:(discriminate)).
      pose proof (Z.mod_pos_bound (now - last_seen p) day ltac:(reflexivity)).
      lia.
    + unfold is_expired. rewrite Z.gtb_lt. lia.
  - intros m now Hnd expired. split; [|split; [|split]].
    + now apply cleanup_entities.
    + unfold cleanup_expired_entities. simpl. now rewrite length_map.
    + reflexivity.
    + reflexivity.
Qed.

Lemma C9_witness :
  let old := mkProfile "old_entity" 0 0 5 None 0 in
  let recent := mkProfile "recent_entity" (35 * day) (35 * day) 3 None 0 in
  let m :=
    mkManager [("old_entity"%string, old); ("recent_entity"%string, recent)]
      0.85 30 in
  entities (fst (cleanup_expired_entities m (35 * day))) =
    [("recent_entity"%string, recent)] /\
  snd (cleanup_expired_entities m (35 * day)) = 1%nat.
Proof.
  intros old recent m.
  destruct C9_expiry_boundary_and_cleanup as (_ & _ & _ & Hclean).
  destruct (Hclean m (35 * day)%Z) as (He & Hn & _).
  - simpl. repeat constructor; simpl; [|tauto].
    intros [H|[]]. discriminate H.
  - split.
    + rewrite He. reflexivity.
    + rewrite Hn. reflexivity.
Defined.

(** *** The scan of [find_matching_entity] *)

Section Scan.
Variables (m : manager) (now : Z) (features : BehavioralFeatures).

Let thr := similarity_threshold m.
Let sim (e : string * EntityProfile) := similarity_to features (snd e).
Let ok (e : string * EntityProfile) := eligible m now (snd e) = true.
Let step := scan_step thr (expiry_days m) now features.

Lemma scan_step_keep (acc : best) (e : string * EntityProfile) :
  (ok e -> ~ (snd acc < sim e /\ thr < sim e)) -> step acc e = acc.
Proof.
  unfold ok, sim, step, scan_step, eligible, similarity_to. intros H.
  destruct (is_expired now (snd e) (expiry_days m)); [reflexivity|].
  destruct (typical_features (snd e)); [|reflexivity].
  destruct (Rlt_dec (snd acc) _); [|reflexivity].
  destruct (Rlt_dec thr _); [|reflexivity].
  exfalso. apply H; auto.
Qed.

Lemma scan_step_take (acc : best) (e : string * EntityProfile) :
  ok e -> snd acc < sim e -> thr < sim e -> step acc e = (Some (fst e), sim e).
Proof.
  unfold ok, sim, step, scan_step, eligible, similarity_to. intros H H1 H2.
  destruct (is_expired now (snd e) (expiry_days m)); [discriminate|].
  destruct (typical_features (snd e)); [|discriminate].
  destruct (Rlt_dec (snd acc) _); [|contradiction].
  destruct (Rlt_dec thr _); [reflexivity | contradiction].
Qed.

Lemma scan_step_cases (acc : best) (e : string * EntityProfile) :
  (step acc e = acc /\ (ok e -> ~ (snd acc < sim e /\ thr < sim e))) \/
  (step acc e = (Some (fst e), sim e) /\
   ok e /\ snd acc < sim e /\ thr < sim e).
Proof.
  destruct (Bool.bool_dec (eligible m now (snd e)) true) as [Hok|Hno].
  - destruct (Rlt_dec (snd acc) (sim e)) as [H1|H1];
      [destruct (Rlt_dec thr (sim e)) as [H2|H2]|].
    + right. split; [now apply scan_step_take | auto].
    + left. split; [apply scan_step_keep|]; tauto.
    + left. split; [apply scan_step_keep|]; tauto.
  - left. split; [apply scan_step_keep|]; unfold ok; tauto.
Qed.

(** The loop either leaves its state alone, no entry improving on it, or
    ends on the first entry of highest similarity above the threshold and
    above the initial best. *)
Lemma scan_spec (es : Dict.t EntityProfile) (acc : best) :
  let r := scan thr (expiry_days m) now features es acc in
  (r = acc /\
   forall e, In e es -> ok e -> ~ (snd acc < sim e /\ thr < sim e)) \/
  (exists before e after,
     es = (before ++ e :: after)%list /\
     r = (Some (fst e), sim e) /\
     ok e /\ thr < sim e /\ snd acc < sim e /\
     (forall e', In e' before -> ok e' -> sim e' < sim e) /\
     (forall e', In e' after -> ok e' -> sim e' <= sim e)).
Proof.
  unfold scan. fold step. revert acc.
  induction es as [|e es IH]; intros acc; simpl.
  - left. split; [reflexivity | tauto].
  - destruct (scan_step_cases acc e) as [[-> Hkeep]|(-> & Hok & H1 & H2)].
    + destruct (IH acc) as [[Hr Hall]|(l1 & e1 & l2 & -> & Hr & He1 & Ht & Hs & Hb & Ha)].
      * left. split; [exact Hr|]. intros e' [<-|Hin]; auto.
      * right. exists (e :: l1), e1, l2. repeat split; auto.
        intros e' [->|Hin] Hok'; [|auto].
        specialize (Hkeep Hok').
        destruct (Rlt_dec (snd acc) (sim e')); [|lra].
        destruct (Rlt_dec thr (sim e')); [tauto | lra].
    + destruct (IH (Some (fst e), sim e))
        as [[Hr Hall]|(l1 & e1 & l2 & -> & Hr & He1 & Ht & Hs & Hb & Ha)].
      * right. exists [], e, es. simpl. repeat split; auto; [tauto|].
        intros e' Hin Hok'. specialize (Hall e' Hin Hok'). simpl in Hall.
        destruct (Rlt_dec (sim e) (sim e')); [|lra].
        destruct (Rlt_dec thr (sim e')); [tauto | lra].
      * right. exists (e :: l1), e1, l2. simpl in Hs.
        repeat split; auto; [lra|].
        intros e' [->|Hin] Hok'; auto.
Qed.

End Scan.

(** *** [find_matching_entity] and [detect_entity] *)

Lemma find_matching_entity_in (m : manager) (now : Z)
    (features : BehavioralFeatures) (eid : string) :
  find_matching_entity m now features = Some eid ->
  exists p, In (eid, p) (entities m).
Proof.
  unfold find_matching_entity.
  destruct (scan_spec m now features (entities m) (None, 0))
    as [[-> _]|(l1 & [k p] & l2 & -> & -> & _)]; simpl; [discriminate|].
  intros [= ->]. exists p. apply in_elt.
Qed.

Lemma find_matching_entity_spec (m : manager) (now : Z)
    (features : BehavioralFeatures) :
  0 <= similarity_threshold m ->
  (find_matching_entity m now features = None /\
   no_candidate m now features) \/
  (exists eid p,
     find_matching_entity m now features = Some eid /\
     selected m now features eid p).
Proof.
  intros Hthr. unfold find_matching_entity.
  destruct (scan_spec m now features (entities m) (None, 0))
    as [[-> Hall]|(l1 & [k p] & l2 & E & -> & Hok & Ht & _ & Hb & Ha)].
  - left. split; [reflexivity|]. intros e Hin Hok.
    specialize (Hall e Hin Hok). simpl in Hall.
    destruct (Rlt_dec (similarity_threshold m) (similarity_to features (snd e)));
      [|lra].
    exfalso. apply Hall. split; lra.
  - right. exists k, p. split; [reflexivity|].
    exists l1, l2. repeat split; auto.
Qed.

(** The two ways a [detect_entity] call can go. *)
Lemma detect_entity_cases (m : manager) (now : Z) (token : string)
    (features : BehavioralFeatures) :
  (exists eid p,
     find_matching_entity m now features = Some eid /\
     truthy eid = true /\
     Dict.get eid (entities m) = Some p /\
     detect_entity m now token features =
       (with_entities m (Dict.set eid (update now p features) (entities m)),
        (eid, false))) \/
  ((find_matching_entity m now features = None \/
    find_matching_entity m now features = Some ""%string) /\
   detect_entity m now token features = detect_new m now token features).
Proof.
  unfold detect_entity.
  destruct (find_matching_entity m now features) as [eid|] eqn:E;
    [|right; auto].
  destruct (truthy eid) eqn:T.
  - destruct (find_matching_entity_in _ _ _ _ E) as [p Hin].
    destruct (Dict.get eid (entities m)) as [p'|] eqn:G.
    + left. exists eid, p'. auto.
    + exfalso. apply dict_get_None_keys in G. apply G.
      change eid with (fst (eid, p)). now apply in_map.
  - right. split; [|reflexivity]. right. f_equal.
    unfold truthy in T. apply negb_false_iff in T.
    now apply String.eqb_eq in T.
Qed.

Lemma app_cons_split {A : Type} (l1 l2 l1' l2' : list A) (x y : A) :
  (l1 ++ x :: l2 = l1' ++ y :: l2')%list ->
  (l1 = l1' /\ x = y /\ l2 = l2') \/
  (In x l1' /\ In y l2) \/ (In y l1 /\ In x l2').
Proof.
  revert l1'. induction l1 as [|a l1 IH]; intros [|b l1']; simpl; intros E.
  - injection E as -> ->. auto.
  - injection E as -> ->. right. left. split; [now left | apply in_elt].
  - injection E as -> <-. right. right. split; [now left | apply in_elt].
  - injection E as -> E. destruct (IH _ E) as [(-> & -> & ->)|[[H1 H2]|[H1 H2]]];
      auto.
Qed.

(** At most one entry is selected. *)
Lemma selected_unique (m : manager) (now : Z) (features : BehavioralFeatures)
    (eid eid' : string) (p p' : EntityProfile) :
  selected m now features eid p -> selected m now features eid' p' ->
  eid = eid' /\ p = p'.
Proof.
  intros (l1 & l2 & E & Hok & Ht & Hb & Ha)
         (l1' & l2' & E' & Hok' & Ht' & Hb' & Ha').
  rewrite E in E'.
  destruct (app_cons_split _ _ _ _ _ _ E') as [(_ & [= -> ->] & _)|[[H1 H2]|[H1 H2]]].
  - auto.
  - pose proof (Hb' _ H1 Hok). pose proof (Ha _ H2 Hok'). simpl in *. lra.
  - pose proof (Hb _ H1 Hok'). pose proof (Ha' _ H2 Hok). simpl in *. lra.
Qed.

Lemma selected_not_no_candidate (m : manager) (now : Z)
    (features : BehavioralFeatures) (eid : string) (p : EntityProfile) :
  selected m now features eid p -> ~ no_candidate m now features.
Proof.
  intros (l1 & l2 & E & Hok & Ht & _) Hno.
  assert (Hin : In (eid, p) (entities m)) by (rewrite E; apply in_elt).
  specialize (Hno _ Hin Hok). simpl in Hno. lra.
Qed.

Lemma update_fields (now : Z) (p : EntityProfile)
    (features cur : BehavioralFeatures) :
  typical_features p = Some cur ->
  update now p features =
    mkProfile (entity_id p) (first_observed p) now (observation_count p + 1)
      (Some (mkFeatures
               (0.3 * movement_speed features
                + (1 - 0.3) * movement_speed cur)
               (0.3 * height_estimate features
                + (1 - 0.3) * height_estimate cur)
               (activity_time cur) (interaction_zone cur)
               (movement_pattern cur)))
      (Rmin 1 (IZR (observation_count p + 1) / 10)).
Proof. intros H. unfold update. rewrite H. reflexivity. Qed.

Lemma same_profile_fields_refl (q : option EntityProfile) :
  same_profile_fields q q.
Proof.
  destruct q as [p|]; simpl; [|exact I]. repeat split.
  destruct (typical_features p); simpl; auto.
Qed.

Lemma same_profile_fields_eq (q q' : option EntityProfile) :
  q' = q -> same_profile_fields q q'.
Proof. intros ->. apply same_profile_fields_refl. Qed.

Lemma eligible_features (m : manager) (now : Z) (p : EntityProfile) :
  eligible m now p = true -> exists cur, typical_features p = Some cur.
Proof.
  unfold eligible. rewrite andb_true_iff. intros [_ H].
  destruct (typical_features p) as [cur|]; [eauto | discriminate].
Qed.

Lemma selected_get (m : manager) (now : Z) (features : BehavioralFeatures)
    (eid : string) (p : EntityProfile) :
  keys_ok m -> selected m now features eid p ->
  Dict.get eid (entities m) = Some p /\ truthy eid = true.
Proof.
  intros [Hnd Hkeys] (l1 & l2 & E & _).
  assert (Hin : In (eid, p) (entities m)) by (rewrite E; apply in_elt).
  split; [now apply dict_In_get|].
  rewrite Forall_forall in Hkeys. apply Hkeys.
  change eid with (fst (eid, p)). now apply in_map.
Qed.

(** C6 (amended): for every registry whose ids are distinct and non-empty
    and whose [similarity_threshold] is not negative, [detect_entity] goes
    one of two ways.  Either exactly one profile is selected (not expired,
    similarity strictly above the threshold, highest among such profiles,
    first in insertion order among equals): then the call returns its id
    with [false], and that profile has [movement_speed] and
    [height_estimate] moved by the EMA with alpha 0.3, the other features
    kept, the count incremented, the confidence recomputed and
    [last_seen] set to now; no key changes, and no other profile changes
    in its own fields or labels.  Or no
    profile qualifies: then the call returns the generated id with [true]
    and stores under it a profile with count 1 and confidence 0.1, after
    the existing entries when the id is new. *)
Theorem C6_detect_entity_selects_best_match
    (m : manager) (now : Z) (token : string) (features : BehavioralFeatures) :
  keys_ok m ->
  0 <= similarity_threshold m ->
  let m' := fst (detect_entity m now token features) in
  let result := snd (detect_entity m now token features) in
  (exists eid p cur,
     selected m now features eid p /\
     (forall eid' q, selected m now features eid' q -> eid' = eid /\ q = p) /\
     typical_features p = Some cur /\
     result = (eid, false) /\
     get_entity_info m' eid =
       Some (mkProfile (entity_id p) (first_observed p) now
               (observation_count p + 1)
               (Some (mkFeatures
                        (0.3 * movement_speed features
                         + (1 - 0.3) * movement_speed cur)
                        (0.3 * height_estimate features
                         + (1 - 0.3) * height_estimate cur)
                        (activity_time cur) (interaction_zone cur)
                        (movement_pattern cur)))
               (Rmin 1 (IZR (observation_count p + 1) / 10))) /\
     Dict.keys (entities m') = Dict.keys (entities m) /\
     (forall other, other <> eid ->
        same_profile_fields (get_entity_info m other)
          (get_entity_info m' other))) \/
  (no_candidate m now features /\
   let eid := generate_entity_id token in
   let created := mkProfile eid now now 1 (Some features) 0.1 in
   result = (eid, true) /\
   get_entity_info m' eid = Some created /\
   (forall other, other <> eid ->
      get_entity_info m' other = get_entity_info m other) /\
   (get_entity_info m eid = None ->
      entities m' = (entities m ++ [(eid, created)])%list)).
Proof.
  intros Hkeys Hthr m' result. subst m' result.
  destruct (find_matching_entity_spec m now features Hthr)
    as [[Hfind Hnone]|(eid & p & Hfind & Hsel)].
  - right. split; [exact Hnone|].
    destruct (detect_entity_cases m now token features)
      as [(e0 & p0 & Hf & _)|[_ ->]]; [congruence|].
    unfold detect_new, get_entity_info. cbn.
    split; [reflexivity|]. split; [apply dict_get_set_same|].
    split; [intros other Hne; now apply dict_get_set_other|].
    intros Hfresh. now apply dict_set_absent.
  - left. destruct (selected_get _ _ _ _ _ Hkeys Hsel) as [Hget Htruthy].
    destruct (eligible_features m now p) as [cur Hcur].
    { destruct Hsel as (? & ? & _ & H & _). exact H. }
    exists eid, p, cur.
    split; [exact Hsel|].
    split; [intros eid' q Hq; destruct (selected_unique _ _ _ _ _ _ _ Hsel Hq); auto|].
    split; [exact Hcur|].
    destruct (detect_entity_cases m now token features)
      as [(e0 & p0 & Hf & _ & Hg & ->)|[[Hf|Hf] _]].
    + assert (e0 = eid) by congruence. subst e0.
      assert (p0 = p) by congruence. subst p0.
      unfold get_entity_info. cbn.
      split; [reflexivity|].
      split; [rewrite dict_get_set_same; f_equal; now apply update_fields|].
      split; [now apply (dict_keys_set_present _ _ p)|].
      intros other Hne. apply same_profile_fields_eq.
      now apply dict_get_set_other.
    + congruence.
    + rewrite Hfind in Hf. injection Hf as ->. discriminate Htruthy.
Qed.

(** C6, as stated, fails for a negative threshold: the running best starts
    at 0.0, so a profile whose similarity is exactly 0 is never taken, though
    0 strictly exceeds the threshold -0.5 and it is the only candidate. *)
Lemma C6_counterexample :
  let f1 := mkFeatures 0 1.75 "morning" "kitchen" "steady" in
  let f2 := mkFeatures 5 1.75 "morning" "kitchen" "steady" in
  let m1 := fst (detect_entity (init (-0.5) 30) 0 "a" f1) in
  let p1 := mkProfile "entity_a" 0 0 1 (Some f1) 0.1 in
  entities m1 = [("entity_a"%string, p1)] /\
  selected m1 0 f2 "entity_a" p1 /\
  similarity_to f2 p1 = 0 /\
  snd (detect_entity m1 0 "b" f2) = ("entity_b"%string, true).
Proof.
  intros f1 f2 m1 p1.
  assert (Hsim : calculate_similarity f2 f1 = 0).
  { rewrite calculate_similarity_unfold.
    replace (sq_distance f2 f1) with (10 * 10)
      by (unfold sq_distance, sum; cbn; lra).
    rewrite sqrt_square by lra.
    replace (1 - 10 / 10) with 0 by lra. apply Rmax_left. lra. }
  split; [reflexivity|]. split; [|split].
  - exists [], []. split; [reflexivity|]. split; [reflexivity|].
    split; [|split; intros e []].
    unfold similarity_to. cbn [typical_features p1 m1].
    rewrite Hsim. cbn. lra.
  - exact Hsim.
  - unfold detect_entity, find_matching_entity, scan.
    cbn [m1 fst detect_entity init entities similarity_threshold expiry_days
         find_matching_entity scan fold_left Dict.empty detect_new
         with_entities Dict.set].
    unfold scan_step at 1.
    cbn [snd fst typical_features new_profile].
    replace (is_expired 0 _ 30) with false by reflexivity.
    rewrite Hsim.
    destruct (Rlt_dec 0 0); [lra|]. reflexivity.
Qed.

Lemma C6_witness :
  let f1 := mkFeatures 1.2 1.75 "morning" "kitchen" "steady" in
  let p1 := mkProfile "entity_a" 0 0 1 (Some f1) 0.1 in
  let m := mkManager [("entity_a"%string, p1)] 0.85 30 in
  snd (detect_entity m 1 "b" f1) = ("entity_a"%string, false) /\
  get_entity_info (fst (detect_entity m 1 "b" f1)) "entity_a" =
    Some (mkProfile "entity_a" 0 1 2
            (Some (mkFeatures (0.3 * 1.2 + (1 - 0.3) * 1.2)
                     (0.3 * 1.75 + (1 - 0.3) * 1.75)
                     "morning" "kitchen" "steady"))
            (Rmin 1 (2 / 10))).
Proof.
  intros f1 p1 m.
  assert (Hsel : selected m 1 f1 "entity_a" p1).
  { exists [], []. split; [reflexivity|]. split; [reflexivity|].
    split; [|split; intros e []].
    unfold similarity_to. cbn [typical_features p1 m similarity_threshold].
    rewrite similarity_self. lra. }
  destruct (C6_detect_entity_selects_best_match m 1 "b" f1)
    as [(eid & p & cur & Hs & _ & Hcur & Hres & Hget & _)|[Hno _]].
  - split; simpl.
    + repeat constructor. intros [].
    + repeat constructor.
  - simpl. lra.
  - destruct (selected_unique _ _ _ _ _ _ _ Hs Hsel) as [-> ->].
    injection Hcur as <-. split; [exact Hres | exact Hget].
  - exfalso. exact (selected_not_no_candidate _ _ _ _ _ Hsel Hno).
Defined.

(** *** [get_entity_info] *)

Lemma dict_get_filter {V : Type} (f : string * V -> bool) (k : string)
    (d : Dict.t V) :
  NoDup (Dict.keys d) ->
  Dict.get k (filter f d) =
    match Dict.get k d with
    | Some v => if f (k, v) then Some v else None
    | None => None
    end.
Proof.
  induction d as [|[k' v'] d IH]; simpl; intros H; [reflexivity|].
  inversion H as [|? ? Hn Hd]; subst.
  destruct (String.eqb k k') eqn:E.
  - apply String.eqb_eq in E. subst k'.
    destruct (f (k, v')); simpl; [now rewrite String.eqb_refl|].
    apply dict_get_None_keys. intros Hin. apply Hn.
    exact (keys_filter_incl f d k Hin).
  - destruct (f (k', v')); simpl; [rewrite E|]; auto.
Qed.

Lemma cleanup_get (m : manager) (now : Z) (eid : string) :
  NoDup (Dict.keys (entities m)) ->
  get_entity_info (fst (cleanup_expired_entities m now)) eid =
    match get_entity_info m eid with
    | Some p => if is_expired now p (expiry_days m) then None else Some p
    | None => None
    end.
Proof.
  intros Hnd. unfold get_entity_info.
  rewrite (cleanup_entities m now Hnd), (dict_get_filter _ _ _ Hnd).
  destruct (Dict.get eid (entities m)) as [p|]; [|reflexivity]. simpl.
  now destruct (is_expired now p (expiry_days m)).
Qed.

Lemma detect_entity_get (m : manager) (now : Z) (token : string)
    (features : BehavioralFeatures) :
  let m' := fst (detect_entity m now token features) in
  let eid := fst (snd (detect_entity m now token features)) in
  let is_new := snd (snd (detect_entity m now token features)) in
  (exists p, get_entity_info m' eid = Some p) /\
  (forall other, other <> eid ->
     same_profile_fields (get_entity_info m other)
       (get_entity_info m' other)) /\
  (is_new = true ->
   forall other, other <> eid ->
     get_entity_info m' other = get_entity_info m other).
Proof.
  unfold get_entity_info.
  destruct (detect_entity_cases m now token features)
    as [(eid & p & _ & _ & _ & ->)|[_ ->]]; cbn.
  - split; [rewrite dict_get_set_same; eauto|]. split.
    + intros other Hne. apply same_profile_fields_eq.
      now apply dict_get_set_other.
    + discriminate.
  - split; [rewrite dict_get_set_same; eauto|]. split.
    + intros other Hne. apply same_profile_fields_eq.
      now apply dict_get_set_other.
    + intros _ other Hne. now apply dict_get_set_other.
Qed.

(** C3, as stated, fails: a profile created at time 0 is expired 31 days
    later under [expiry_days = 30], is skipped by a [detect_entity] call made
    then, and is still returned by [get_entity_info]. *)
Lemma C3_counterexample :
  let f := mkFeatures 1.2 1.75 "morning" "kitchen" "steady" in
  let m1 := fst (detect_entity (init 0.85 30) 0 "a" f) in
  let m2 := fst (detect_entity m1 (31 * day) "b" f) in
  let p := mkProfile "entity_a" 0 0 1 (Some f) 0.1 in
  is_expired (31 * day) p (expiry_days m2) = true /\
  snd (detect_entity m1 (31 * day) "b" f) = ("entity_b"%string, true) /\
  get_entity_info m1 "entity_a" = Some p /\
  get_entity_info m2 "entity_a" = Some p.
Proof.
  intros f m1 m2 p. repeat split; reflexivity.
Qed.

(** C3 (amended): [get_entity_info] is a lookup in the registry's
    dictionary and checks no expiry.  It returns [None] on a new registry;
    [detect_entity] makes the id it returns present and, for every other
    id, changes neither whether a profile is returned nor that profile's
    own fields and labels (nor anything at all when it reports a new
    entity), so a profile that has expired stays visible; only
    [cleanup_expired_entities] removes profiles, exactly those expired at
    the time of the call, the others being returned unchanged. *)
Theorem C3_get_entity_info_ignores_expiry :
  (forall threshold expiry eid,
     get_entity_info (init threshold expiry) eid = None) /\
  (forall m now token features,
     let m' := fst (detect_entity m now token features) in
     let eid := fst (snd (detect_entity m now token features)) in
     let is_new := snd (snd (detect_entity m now token features)) in
     (exists p, get_entity_info m' eid = Some p) /\
     (forall other, other <> eid ->
        same_profile_fields (get_entity_info m other)
          (get_entity_info m' other)) /\
     (is_new = true ->
      forall other, other <> eid ->
        get_entity_info m' other = get_entity_info m other)) /\
  (forall m now eid,
     NoDup (Dict.keys (entities m)) ->
     get_entity_info (fst (cleanup_expired_entities m now)) eid =
       match get_entity_info m eid with
       | Some p => if is_expired now p (expiry_days m) then None else Some p
       | None => None
       end).
Proof.
  split; [|split].
  - reflexivity.
  - apply detect_entity_get.
  - apply cleanup_get.
Qed.

Lemma C3_witness :
  let old := mkProfile "old_entity" 0 0 5 None 0 in
  let recent := mkProfile "recent_entity" (35 * day) (35 * day) 3 None 0 in
  let m :=
    mkManager [("old_entity"%string, old); ("recent_entity"%string, recent)]
      0.85 30 in
  get_entity_info m "old_entity" = Some old /\
  get_entity_info (fst (cleanup_expired_entities m (35 * day))) "old_entity"
    = None /\
  get_entity_info (fst (cleanup_expired_entities m (35 * day)))
    "recent_entity" = Some recent.
Proof.
  intros old recent m.
  destruct C3_get_entity_info_ignores_expiry as (_ & _ & Hclean).
  assert (Hnd : NoDup (Dict.keys (entities m))).
  { simpl. repeat constructor; simpl; [|tauto].
    intros [H|[]]. discriminate H. }
  split; [reflexivity|]. split.
  - rewrite (Hclean m (35 * day)%Z "old_entity"%string Hnd). reflexivity.
  - rewrite (Hclean m (35 * day)%Z "recent_entity"%string Hnd). reflexivity.
Defined.

(** *** Confidence and the observation count *)

Lemma detect_entity_matched (m : manager) (now : Z) (token : string)
    (features : BehavioralFeatures) (eid : string) (p : EntityProfile) :
  find_matching_entity m now features = Some eid ->
  truthy eid = true ->
  Dict.get eid (entities m) = Some p ->
  detect_entity m now token features =
    (with_entities m (Dict.set eid (update now p features) (entities m)),
     (eid, false)).
Proof. intros Hf Ht Hg. unfold detect_entity. now rewrite Hf, Ht, Hg. Qed.

Lemma truthy_generated (token : string) :
  truthy (generate_entity_id token) = true.
Proof. reflexivity. Qed.

Lemma new_profile_confidence_ok (now : Z) (eid : string)
    (features : BehavioralFeatures) :
  confidence_ok (new_profile now eid features).
Proof.
  split; simpl; [|lia]. rewrite Rmin_right; lra.
Qed.

Lemma update_confidence_ok (now : Z) (p : EntityProfile)
    (features : BehavioralFeatures) :
  (0 <= observation_count p)%Z -> confidence_ok (update now p features).
Proof. intros H. split; simpl; [reflexivity | lia]. Qed.

Lemma Forall_dict_del {V : Type} (P : string * V -> Prop) (k : string)
    (d : Dict.t V) :
  Forall P d -> Forall P (Dict.del k d).
Proof.
  induction 1 as [|[k' v] d Hv Hd IH]; simpl; [constructor|].
  destruct (String.eqb k k'); [exact Hd | now constructor].
Qed.

Lemma Forall_dict_del_all {V : Type} (P : string * V -> Prop)
    (ks : list string) (d : Dict.t V) :
  Forall P d -> Forall P (fold_left (fun es k => Dict.del k es) ks d).
Proof.
  revert d. induction ks as [|k ks IH]; intros d H; simpl; [exact H|].
  apply IH. now apply Forall_dict_del.
Qed.

Lemma reachable_confidence_ok (m : manager) :
  reachable m -> Forall (fun e => confidence_ok (snd e)) (entities m).
Proof.
  induction 1 as [thr exp | m now token f Hm IH | m now Hm IH].
  - constructor.
  - destruct (detect_entity_cases m now token f)
      as [(eid & p & _ & _ & Hg & ->)|[_ ->]]; cbn.
    + apply (dict_Forall_set confidence_ok); [|exact IH].
      apply update_confidence_ok.
      destruct (dict_Forall_get confidence_ok _ _ _ IH Hg). lia.
    + apply (dict_Forall_set confidence_ok); [|exact IH].
      apply new_profile_confidence_ok.
  - cbn. now apply Forall_dict_del_all.
Qed.

Lemma keys_set {V : Type} (k : string) (v : V) (d : Dict.t V) :
  Dict.keys (Dict.set k v d) = Dict.keys d \/
  (~ In k (Dict.keys d) /\
   Dict.keys (Dict.set k v d) = (Dict.keys d ++ [k])%list).
Proof.
  destruct (Dict.get k d) as [v0|] eqn:E.
  - left. exact (dict_keys_set_present k v v0 d E).
  - right. split; [now apply dict_get_None_keys|].
    rewrite (dict_set_absent _ _ _ E). unfold Dict.keys.
    now rewrite map_app.
Qed.

Lemma keys_ok_set (m : manager) (k : string) (p : EntityProfile) :
  keys_ok m -> truthy k = true ->
  keys_ok (with_entities m (Dict.set k p (entities m))).
Proof.
  intros [Hnd Hall] Hk. unfold keys_ok. cbn [entities with_entities].
  destruct (keys_set k p (entities m)) as [->|[Hnew ->]]; [auto|]. split.
  - apply NoDup_app; [exact Hnd | repeat constructor; intros [] |].
    intros x Hx [<-|[]]. contradiction.
  - apply Forall_app. split; [exact Hall | now repeat constructor].
Qed.

Lemma reachable_keys_ok (m : manager) : reachable m -> keys_ok m.
Proof.
  induction 1 as [thr exp | m now token f Hm IH | m now Hm IH].
  - split; constructor.
  - destruct (detect_entity_cases m now token f)
      as [(eid & p & _ & Ht & _ & ->)|[_ ->]]; cbn.
    + now apply keys_ok_set.
    + apply keys_ok_set; [exact IH | apply truthy_generated].
  - destruct IH as [Hnd Hall]. unfold keys_ok.
    rewrite (cleanup_entities m now Hnd). split.
    + now apply NoDup_keys_filter.
    + rewrite Forall_forall in *. intros k Hk. apply Hall.
      exact (keys_filter_incl _ _ k Hk).
Qed.

(** After [n] consecutive observations of one entity its profile has count
    [n] and confidence [min(1, n / 10)]. *)
Lemma tracks_profile (eid : string) (n : nat) (m : manager) :
  tracks eid n m ->
  exists p,
    get_entity_info m eid = Some p /\
    observation_count p = Z.of_nat n /\
    confidence p = Rmin 1 (INR n / 10).
Proof.
  unfold get_entity_info.
  induction 1 as [m m' now token f E | n m m' now token f Hn IH E].
  - destruct (detect_entity_cases m now token f)
      as [(e0 & p0 & _ & _ & _ & E')|[_ E']]; rewrite E' in E.
    + discriminate.
    + unfold detect_new in E. injection E as <- <-. cbn.
      rewrite dict_get_set_same. eexists. split; [reflexivity|].
      simpl. split; [reflexivity|]. rewrite !Rmin_right; lra.
  - destruct IH as (p & Hp & Hc & _).
    destruct (detect_entity_cases m now token f)
      as [(e0 & p0 & _ & _ & Hg & E')|[_ E']]; rewrite E' in E.
    + injection E as <- <-. cbn. rewrite dict_get_set_same.
      assert (p0 = p) by congruence. subst p0.
      eexists. split; [reflexivity|]. simpl.
      assert (Hz : (observation_count p + 1)%Z = Z.of_nat (S n)) by lia.
      rewrite Hz. split; [reflexivity|]. now rewrite <- INR_IZR_INZ.
    + unfold detect_new in E. discriminate.
Qed.

Lemma confidence_step (n : nat) :
  Rmin 1 (INR n / 10) <= Rmin 1 (INR (S n) / 10).
Proof.
  rewrite S_INR. apply Rle_min_compat_l. lra.
Qed.

Lemma detect_entity_count_monotone (m : manager) (now : Z) (token : string)
    (features : BehavioralFeatures) (eid : string) (p : EntityProfile) :
  get_entity_info m (generate_entity_id token) = None ->
  get_entity_info m eid = Some p ->
  exists p',
    get_entity_info (fst (detect_entity m now token features)) eid = Some p' /\
    entity_id p' = entity_id p /\
    (observation_count p' = observation_count p \/
     observation_count p' = observation_count p + 1)%Z.
Proof.
  unfold get_entity_info. intros Hfresh Hp.
  destruct (detect_entity_cases m now token features)
    as [(e0 & p0 & _ & _ & Hg & ->)|[_ ->]];
    unfold detect_new; cbn [fst entities with_entities].
  - destruct (String.eqb eid e0) eqn:E.
    + apply String.eqb_eq in E. subst e0.
      assert (p0 = p) by congruence. subst p0.
      rewrite dict_get_set_same. eexists. split; [reflexivity|].
      simpl. auto.
    + apply String.eqb_neq in E. rewrite dict_get_set_other by exact E.
      exists p. auto.
  - rewrite dict_get_set_other; [exists p; auto|].
    intros ->. congruence.
Qed.

Lemma rematched_tracks (eid : string) (n : nat) (m : manager) :
  rematched eid n m -> tracks eid (S n) m.
Proof.
  induction 1 as [m m' now token f E | n m m' now token f _ IH E].
  - exact (tracks_new eid m m' now token f E).
  - exact (tracks_match eid (S n) m m' now token f IH E).
Qed.

Lemma find_matching_entity_single (now : Z) (eid : string)
    (p : EntityProfile) (f : BehavioralFeatures) (threshold : R)
    (expiry : Z) :
  is_expired now p expiry = false ->
  typical_features p = Some f ->
  threshold < 1 ->
  find_matching_entity (mkManager [(eid, p)] threshold expiry) now f
    = Some eid.
Proof.
  intros Hexp Hf Ht. unfold find_matching_entity, scan.
  cbn [entities similarity_threshold expiry_days fold_left].
  unfold scan_step. cbn [snd fst]. rewrite Hexp, Hf, similarity_self.
  destruct (Rlt_dec 0 1); [|lra].
  destruct (Rlt_dec threshold 1); [reflexivity | contradiction].
Qed.

(** C8, as stated, fails: the creating observation already sets the count
    to 1, so after one matched observation the confidence is 0.2 and not
    [min(1, 1 / 10)]. *)
Lemma C8_counterexample :
  let f := mkFeatures 1.2 1.75 "morning" "kitchen" "steady" in
  let created := mkProfile "entity_a" 0 0 1 (Some f) 0.1 in
  let m1 := mkManager [("entity_a"%string, created)] 0.85 30 in
  let m2 :=
    mkManager [("entity_a"%string, update 1 created f)] 0.85 30 in
  detect_entity (init 0.85 30) 0 "a" f = (m1, ("entity_a"%string, true)) /\
  detect_entity m1 1 "b" f = (m2, ("entity_a"%string, false)) /\
  rematched "entity_a" 1 m2 /\
  exists p,
    get_entity_info m2 "entity_a" = Some p /\
    observation_count p = 2%Z /\
    confidence p = 0.2 /\
    confidence p <> Rmin 1 (INR 1 / 10).
Proof.
  intros f created m1 m2.
  assert (E1 : detect_entity (init 0.85 30) 0 "a" f
               = (m1, ("entity_a"%string, true))) by reflexivity.
  assert (E2 : detect_entity m1 1 "b" f = (m2, ("entity_a"%string, false))).
  { apply (detect_entity_matched m1 1 "b" f "entity_a" created);
      [|reflexivity|reflexivity].
    apply find_matching_entity_single; [reflexivity | reflexivity | lra]. }
  split; [exact E1|]. split; [exact E2|]. split.
  - exact (rematched_again "entity_a" 0 m1 m2 1 "b" f
             (rematched_created "entity_a" _ m1 0 "a" f E1) E2).
  - eexists. split; [reflexivity|]. simpl. split; [reflexivity|].
    assert (H2 : Rmin 1 (2 / 10) = 0.2) by (rewrite Rmin_right; lra).
    assert (H1 : Rmin 1 (1 / 10) = 0.1) by (rewrite Rmin_right; lra).
    rewrite H2, H1. split; lra.
Qed.

(** C8 (amended): after the [detect_entity] observation that creates an
    entity and [n] consecutive matched observations of it, its count is
    [n + 1] and its confidence [min(1, (n + 1) / 10)], which does not
    decrease with [n].  In every registry built by the operations each
    profile has [confidence = min(1, observation_count / 10)] with a count
    of at least 1; [detect_entity] leaves the count of a stored profile
    alone or adds 1 to it (the generated id being new), and
    [cleanup_expired_entities] changes no profile that it keeps: no
    operation decays a count. *)
Theorem C8_confidence_follows_observation_count :
  (forall eid n m,
     rematched eid n m ->
     exists p,
       get_entity_info m eid = Some p /\
       observation_count p = (Z.of_nat n + 1)%Z /\
       confidence p = Rmin 1 ((INR n + 1) / 10)) /\
  (forall n, Rmin 1 ((INR n + 1) / 10) <= Rmin 1 ((INR (S n) + 1) / 10)) /\
  (forall m eid p,
     reachable m ->
     get_entity_info m eid = Some p ->
     confidence p = Rmin 1 (IZR (observation_count p) / 10) /\
     (1 <= observation_count p)%Z) /\
  (forall m now token features eid p,
     get_entity_info m (generate_entity_id token) = None ->
     get_entity_info m eid = Some p ->
     exists p',
       get_entity_info (fst (detect_entity m now token features)) eid
         = Some p' /\
       (observation_count p <= observation_count p')%Z) /\
  (forall m now eid p,
     reachable m ->
     get_entity_info (fst (cleanup_expired_entities m now)) eid = Some p ->
     get_entity_info m eid = Some p).
Proof.
  split; [|split; [|split; [|split]]].
  - intros eid n m H.
    destruct (tracks_profile eid (S n) m (rematched_tracks eid n m H))
      as (p & Hp & Hc & Hconf).
    exists p. split; [exact Hp|]. split; [lia|].
    rewrite Hconf, S_INR. reflexivity.
  - intros n. rewrite S_INR. apply Rle_min_compat_l. lra.
  - intros m eid p Hm Hp.
    exact (dict_Forall_get confidence_ok _ _ _ (reachable_confidence_ok m Hm) Hp).
  - intros m now token f eid p Hfresh Hp.
    destruct (detect_entity_count_monotone m now token f eid p Hfresh Hp)
      as (p' & Hp' & _ & Hc).
    exists p'. split; [exact Hp' | lia].
  - intros m now eid p Hm.
    rewrite (cleanup_get m now eid (proj1 (reachable_keys_ok m Hm))).
    destruct (get_entity_info m eid) as [q|]; [|discriminate].
    destruct (is_expired now q (expiry_days m)); [discriminate | auto].
Qed.

Lemma C8_witness :
  let f := mkFeatures 1.2 1.75 "morning" "kitchen" "steady" in
  let created := mkProfile "entity_a" 0 0 1 (Some f) 0.1 in
  let m1 := mkManager [("entity_a"%string, created)] 0.85 30 in
  let m2 :=
    mkManager [("entity_a"%string, update 1 created f)] 0.85 30 in
  exists p,
    get_entity_info m2 "entity_a" = Some p /\
    observation_count p = (Z.of_nat 1 + 1)%Z /\
    confidence p = Rmin 1 ((INR 1 + 1) / 10).
Proof.
  intros f created m1 m2.
  destruct C8_confidence_follows_observation_count as (Hre & _).
  apply (Hre "entity_a"%string 1%nat m2).
  apply (rematched_again "entity_a" 0 m1 m2 1 "b" f).
  - apply (rematched_created "entity_a" (init 0.85 30) m1 0 "a" f).
    reflexivity.
  - apply (detect_entity_matched m1 1 "b" f "entity_a" created);
      [|reflexivity|reflexivity].
    apply find_matching_entity_single; [reflexivity | reflexivity | lra].
Defined.

End IdentityFacts.

(** ** Pattern memory: further properties of the code *)

Module PatternMemoryMore.
Import PatternMemory PatternMemoryFacts.

Lemma keys_map_values {V : Type} (f : V -> V) (d : Dict.t V) :
  Dict.keys (Dict.map_values f d) = Dict.keys d.
Proof.
  unfold Dict.keys, Dict.map_values. rewrite map_map. reflexivity.
Qed.

Lemma observe_activity_keys (st st' : store) (now : Z) (a : string)
    (hour dur : R) (z : string) (speed : R) :
  observe_activity st now a hour dur z speed = Returns st' ->
  match get_pattern st a with
  | Some _ => Dict.keys (patterns st') = Dict.keys (patterns st)
  | None => Dict.keys (patterns st') = (Dict.keys (patterns st) ++ [a])%list
  end.
Proof.
  intros E. destruct (observe_activity_returns_inv _ _ _ _ _ _ _ _ E)
    as (s' & _ & -> & _).
  rewrite keys_map_values. unfold get_pattern.
  destruct (Dict.get a (patterns st)) as [p|] eqn:G.
  - exact (dict_keys_set_present _ _ _ _ G).
  - rewrite (dict_set_absent _ _ _ G). unfold Dict.keys.
    now rewrite map_app.
Qed.

(** X1.  Bookkeeping of a run of returning calls: [total_observations]
    grows by the number of calls, [decay_factor] never changes, no activity
    type is ever dropped or reordered (the stored keys are a prefix of the
    new keys), and every observed type is stored afterwards. *)
Theorem observe_all_bookkeeping (os : list observation) (st st' : store) :
  observe_all st os = Returns st' ->
  total_observations st' =
    (total_observations st + Z.of_nat (List.length os))%Z /\
  decay_factor st' = decay_factor st /\
  (exists added,
     Dict.keys (patterns st') = (Dict.keys (patterns st) ++ added)%list) /\
  (forall o, In o os -> In (o_activity o) (Dict.keys (patterns st'))).
Proof.
  revert st. induction os as [|o os IH]; intros st; simpl.
  - intros [= <-]. repeat split; [lia | exists []; now rewrite app_nil_r |].
    intros o [].
  - unfold observe.
    destruct (observe_activity st _ _ _ _ _ _) as [st1|] eqn:E; [|discriminate].
    intros Hrest. destruct (IH st1 Hrest) as (Ht & Hd & (added & Hk) & Hin).
    destruct (observe_activity_returns_inv _ _ _ _ _ _ _ _ E)
      as (_ & _ & _ & Hd1 & Ht1).
    pose proof (observe_activity_keys _ _ _ _ _ _ _ _ E) as Hk1.
    split; [lia|]. split; [congruence|].
    assert (Hpre : exists one,
               Dict.keys (patterns st1) = (Dict.keys (patterns st) ++ one)%list
               /\ In (o_activity o) (Dict.keys (patterns st1))).
    { destruct (get_pattern st (o_activity o)) as [p|] eqn:G.
      - exists []. rewrite app_nil_r. split; [exact Hk1|]. rewrite Hk1.
        unfold get_pattern in G.
        destruct (in_dec string_dec (o_activity o) (Dict.keys (patterns st)))
          as [H|H]; [exact H|].
        apply dict_get_None_keys in H. congruence.
      - exists [o_activity o]. split; [exact Hk1|]. rewrite Hk1.
        apply in_or_app. right. now left. }
    destruct Hpre as (one & Hone & Hhere). split.
    + exists (one ++ added)%list. now rewrite Hk, Hone, app_assoc.
    + intros o' [<-|Ho']; [|auto]. rewrite Hk. apply in_or_app. now left.
Qed.

Lemma observe_all_bookkeeping_witness :
  exists st',
    observe_all (init 0.9)
      [mkObs 0 "activity1" 10 30 "zone1" 1;
       mkObs 1 "activity2" 12 20 "zone2" 0.8] = Returns st' /\
    total_observations st' = 2%Z /\
    decay_factor st' = 0.9.
Proof.
  destruct (observe_all_nonneg
              [mkObs 0 "activity1" 10 30 "zone1" 1;
               mkObs 1 "activity2" 12 20 "zone2" 0.8] (init 0.9))
    as (st' & E & _); [apply nonneg_init; lra|].
  exists st'. split; [exact E|].
  destruct (observe_all_bookkeeping _ _ _ E) as (Ht & Hd & _).
  split; [exact Ht | exact Hd].
Defined.

(** X2.  The first observation of an activity type that is not stored
    always returns, whatever the store: the new pattern goes last, its means
    are the sample, its standard deviations 0, its only zone has frequency
    [d], its counter is [d] and its stability [d / 20]. *)
Theorem observe_activity_new_type (st : store) (now : Z) (a : string)
    (hour dur : R) (z : string) (speed : R) :
  get_pattern st a = None ->
  exists st' p,
    observe_activity st now a hour dur z speed = Returns st' /\
    Dict.keys (patterns st') = (Dict.keys (patterns st) ++ [a])%list /\
    get_pattern st' a = Some p /\
    activity_type p = a /\
    active_hours_mean (temporal p) = hour /\
    active_hours_std (temporal p) = 0 /\
    typical_duration_mean (temporal p) = dur /\
    typical_duration_std (temporal p) = 0 /\
    observation_count (temporal p) = decay_factor st /\
    pattern_stability (temporal p) = decay_factor st / 20 /\
    zone_frequencies (spatial p) = [(z, decay_factor st)] /\
    movement_speed_mean (spatial p) = speed /\
    movement_speed_std (spatial p) = 0.
Proof.
  intros Habs.
  assert (Hf : fetch now st a = ActivityPattern_default now a).
  { unfold fetch. unfold get_pattern in Habs. now rewrite Habs. }
  destruct (update_spatial_returns (spatial (fetch now st a)) z speed)
    as [s' Hs].
  { rewrite Hf. simpl. rewrite sum_nil. lra. }
  assert (E : exists st', observe_activity st now a hour dur z speed
                          = Returns st').
  { unfold observe_activity. rewrite Hs. eauto. }
  destruct E as [st' E]. pose proof (observe_activity_keys _ _ _ _ _ _ _ _ E) as Hk.
  rewrite Habs in Hk.
  destruct (observe_activity_touched _ _ _ _ _ _ _ _ E) as (s'' & Hs' & Hp).
  rewrite Hs in Hs'. injection Hs' as <-.
  exists st'. eexists. split; [exact E|]. split; [exact Hk|].
  split; [exact Hp|].
  rewrite Hf in *. unfold _update_spatial_pattern in Hs. simpl in Hs.
  unfold bump_zone in Hs. simpl in Hs. unfold sum in Hs. simpl in Hs.
  destruct (Req_dec_T (0 + 1) 0); [lra|].
  destruct (Req_dec_T 0 0); [|lra].
  injection Hs as <-. simpl.
  destruct (Req_dec_T (0 + 1) 1); [|lra]. simpl.
  repeat split; try reflexivity; try lra.
  - rewrite Rmin_right; lra.
  - repeat f_equal. field.
Qed.

Lemma observe_activity_new_type_witness :
  exists st' p,
    observe_activity (init 0.95) 0 "breakfast" 7.5 25 "kitchen" 1.2
      = Returns st' /\
    get_pattern st' "breakfast" = Some p /\
    observation_count (temporal p) = 0.95 /\
    zone_frequencies (spatial p) = [("kitchen"%string, 0.95)].
Proof.
  destruct (observe_activity_new_type (init 0.95) 0 "breakfast" 7.5 25
              "kitchen" 1.2)
    as (st' & p & E & _ & Hp & _ & _ & _ & _ & _ & Hc & _ & Hz & _).
  - reflexivity.
  - exists st', p. auto.
Defined.

Lemma built_decay_factor (d : R) (st : store) :
  built d st -> decay_factor st = d.
Proof.
  induction 1 as [|st st' now a hour dur z speed _ IH E]; [reflexivity|].
  now destruct (observe_activity_returns_inv _ _ _ _ _ _ _ _ E)
    as (_ & _ & _ & -> & _).
Qed.

Lemma count_bound_step (d c : R) :
  0 <= d < 1 -> 0 <= c <= d / (1 - d) -> 0 <= (c + 1) * d <= d / (1 - d).
Proof.
  intros Hd [Hc0 Hc]. split; [nra|].
  assert (Hpos : 0 < 1 - d) by lra.
  apply (Rmult_le_reg_r (1 - d)); [exact Hpos|].
  replace (d / (1 - d) * (1 - d)) with d by (field; lra).
  assert (Hc' : c * (1 - d) <= d).
  { apply (Rmult_le_compat_r (1 - d)) in Hc; [|lra].
    replace (d / (1 - d) * (1 - d)) with d in Hc by (field; lra). exact Hc. }
  nra.
Qed.

Lemma count_bound_decay (d c : R) :
  0 <= d < 1 -> 0 <= c <= d / (1 - d) -> 0 <= c * d <= d / (1 - d).
Proof. intros Hd [Hc0 Hc]. split; nra. Qed.

Lemma built_count_bounded (d : R) (st : store) :
  0 <= d < 1 -> built d st ->
  Forall (fun kv => count_bounded d (snd kv)) (patterns st).
Proof.
  intros Hd. induction 1 as [|st st' now a hour dur z speed Hb IH E].
  - constructor.
  - pose proof (built_decay_factor _ _ Hb) as Hdf.
    destruct (observe_activity_returns_inv _ _ _ _ _ _ _ _ E)
      as (s' & _ & -> & _).
    unfold Dict.map_values. rewrite Forall_map. simpl. rewrite Hdf.
    apply (dict_Forall_set (fun p => count_bounded d (decay_pattern d p))).
    + unfold count_bounded. simpl. apply count_bound_step; [exact Hd|].
      unfold fetch. destruct (Dict.get a (patterns st)) as [p|] eqn:G.
      * exact (dict_Forall_get (count_bounded d) _ _ _ IH G).
      * simpl. split; [lra|].
        apply Rmult_le_pos; [lra|]. left. apply Rinv_0_lt_compat. lra.
    + eapply Forall_impl; [|exact IH]. intros kv Hkv.
      unfold count_bounded in *. simpl. now apply count_bound_decay.
Qed.

Lemma built_observe_all (d : R) (os : list observation) (st st' : store) :
  built d st -> observe_all st os = Returns st' -> built d st'.
Proof.
  revert st. induction os as [|o os IH]; intros st Hb; simpl.
  - now intros [= <-].
  - unfold observe.
    destruct (observe_activity st _ _ _ _ _ _) as [st1|] eqn:E; [|discriminate].
    apply IH. exact (built_observe d _ _ _ _ _ _ _ _ Hb E).
Qed.

(** X3.  In a store built with a decay factor [0 <= d < 1] every counter
    lies between 0 and [d / (1 - d)]; so with [d < 0.75] no counter ever
    reaches 3 and [detect_anomaly] answers [(False, 0.0)] to every query,
    whatever has been observed. *)
Theorem detect_anomaly_silent_below_three_quarters
    (d : R) (st : store) (a : string) (h dur : R) :
  0 <= d < 0.75 ->
  built d st ->
  (forall p, get_pattern st a = Some p ->
     0 <= observation_count (temporal p) <= d / (1 - d) /\
     observation_count (temporal p) < 3) /\
  detect_anomaly st a h dur = (false, 0).
Proof.
  intros Hd Hb.
  assert (Hall := built_count_bounded d st ltac:(lra) Hb).
  assert (Hlt : d / (1 - d) < 3).
  { apply (Rmult_lt_reg_r (1 - d)); [lra|].
    replace (d / (1 - d) * (1 - d)) with d by (field; lra). lra. }
  assert (Hp : forall p, get_pattern st a = Some p ->
             0 <= observation_count (temporal p) <= d / (1 - d) /\
             observation_count (temporal p) < 3).
  { intros p G.
    pose proof (dict_Forall_get (count_bounded d) _ _ _ Hall G) as [H0 H1].
    repeat split; lra. }
  split; [exact Hp|].
  unfold detect_anomaly. destruct (get_pattern st a) as [p|]; [|reflexivity].
  destruct (Hp p eq_refl) as [_ H3].
  destruct (Rlt_dec _ 3); [reflexivity | contradiction].
Qed.

Lemma detect_anomaly_silent_witness :
  exists st,
    observe_all (init 0.5)
      [mkObs 0 "nap" 14 60 "bedroom" 0.25; mkObs 1 "nap" 2 5 "bedroom" 0.25;
       mkObs 2 "nap" 14 60 "bedroom" 0.25] = Returns st /\
    detect_anomaly st "nap" 3 600 = (false, 0).
Proof.
  destruct (observe_all_nonneg
              [mkObs 0 "nap" 14 60 "bedroom" 0.25;
               mkObs 1 "nap" 2 5 "bedroom" 0.25;
               mkObs 2 "nap" 14 60 "bedroom" 0.25] (init 0.5))
    as (st & E & _); [apply nonneg_init; lra|].
  exists st. split; [exact E|].
  apply (detect_anomaly_silent_below_three_quarters 0.5); [lra|].
  exact (built_observe_all 0.5 _ _ _ (built_init 0.5) E).
Defined.

(** An invariant of the pattern stored for [a] that the decay sweep keeps
    and that the update of [a] establishes holds after any run of returning
    calls. *)
Lemma observe_all_pattern_invariant (a : string)
    (P : ActivityPattern -> Prop) (ok : observation -> Prop) :
  (forall d p, P p -> P (decay_pattern d p)) ->
  (forall st st' o p,
     (forall q, get_pattern st a = Some q -> P q) ->
     o_activity o = a -> ok o ->
     observe st o = Returns st' ->
     get_pattern st' a = Some p -> P p) ->
  forall os st st',
    (forall q, get_pattern st a = Some q -> P q) ->
    Forall (fun o => o_activity o = a -> ok o) os ->
    observe_all st os = Returns st' ->
    forall p, get_pattern st' a = Some p -> P p.
Proof.
  intros Hdecay Hstep os. induction os as [|o os IH]; intros st st' Hinv Hall.
  - simpl. now intros [= <-].
  - simpl. destruct (observe st o) as [st1|] eqn:E; [|discriminate].
    inversion Hall as [|? ? Ho Hos]; subst. apply IH; [|exact Hos].
    intros q Hq. destruct (string_dec (o_activity o) a) as [Ha|Ha].
    + exact (Hstep st st1 o q Hinv Ha (Ho Ha) E Hq).
    + unfold observe in E.
      rewrite (observe_activity_untouched _ _ _ _ a _ _ _ _ E) in Hq
        by congruence.
      destruct (get_pattern st a) as [q0|] eqn:G; [|discriminate].
      injection Hq as <-. apply Hdecay. now apply Hinv.
Qed.

Lemma fetch_cases (now : Z) (st : store) (a : string) :
  (exists p, get_pattern st a = Some p /\ fetch now st a = p) \/
  (get_pattern st a = None /\ fetch now st a = ActivityPattern_default now a).
Proof.
  unfold fetch, get_pattern.
  destruct (Dict.get a (patterns st)) as [p|]; [left; eauto | right; auto].
Qed.

Lemma ema_mean_between (lo hi sample mean : R) :
  lo <= sample <= hi -> lo <= mean <= hi ->
  lo <= ema_mean 0.2 sample mean <= hi.
Proof. unfold ema_mean. intros [? ?] [? ?]. split; lra. Qed.

(** X5.  The learned means never leave the range of the samples: when the
    stored pattern of an activity type (if any) has its hour, duration and
    speed means within given ranges and every observation of that type
    brings values within them, the means are within them after any run of
    returning calls, other types being observed in between or not. *)
Theorem learned_means_stay_within_samples
    (a : string) (hours durations speeds : R * R)
    (os : list observation) (st st' : store) :
  (forall p, get_pattern st a = Some p ->
     means_within hours durations speeds p) ->
  Forall (fun o => o_activity o = a ->
            fst hours <= o_hour o <= snd hours /\
            fst durations <= o_duration o <= snd durations /\
            fst speeds <= o_speed o <= snd speeds) os ->
  observe_all st os = Returns st' ->
  forall p, get_pattern st' a = Some p ->
    means_within hours durations speeds p.
Proof.
  intros Hinit Hall E.
  refine (observe_all_pattern_invariant a
            (means_within hours durations speeds)
            (fun o => fst hours <= o_hour o <= snd hours /\
                      fst durations <= o_duration o <= snd durations /\
                      fst speeds <= o_speed o <= snd speeds)
            _ _ os st st' Hinit Hall E).
  - intros d p Hp. exact Hp.
  - clear. intros st st' o p Hinv Ha (Hh & Hd & Hs) E Hp. unfold observe in E.
    destruct (observe_activity_touched _ _ _ _ _ _ _ _ E) as (s' & Hs' & Hp').
    rewrite Ha in Hp', Hs'. rewrite Hp' in Hp. injection Hp as <-.
    unfold _update_spatial_pattern in Hs'.
    destruct (Req_dec_T (sum _) 0); [discriminate|]. injection Hs' as <-.
    unfold means_within. simpl.
    destruct (fetch_cases (o_now o) st a) as [(q & Hq & Hf)|[_ Hf]];
      rewrite Hf in *.
    + destruct (Hinv q Hq) as (Hqh & Hqd & Hqs).
      destruct (Req_dec_T _ 1), (Req_dec_T (movement_speed_mean _) 0); simpl;
        (split; [|split]);
        first [assumption | apply ema_mean_between; assumption].
    + simpl. destruct (Req_dec_T (0 + 1) 1) as [_|N]; [|exfalso; apply N; lra].
      destruct (Req_dec_T 0 0) as [_|N]; [|exfalso; apply N; lra].
      simpl. tauto.
Qed.

Lemma learned_means_witness :
  exists st,
    observe_all (init 0.98)
      [mkObs 0 "breakfast" 7.4 23 "kitchen" 1.2;
       mkObs 1 "reading" 14 60 "living_room" 0.3;
       mkObs 2 "breakfast" 7.6 27 "kitchen" 1.1] = Returns st /\
    forall p, get_pattern st "breakfast" = Some p ->
      7.4 <= active_hours_mean (temporal p) <= 7.6 /\
      23 <= typical_duration_mean (temporal p) <= 27.
Proof.
  destruct (observe_all_nonneg
              [mkObs 0 "breakfast" 7.4 23 "kitchen" 1.2;
               mkObs 1 "reading" 14 60 "living_room" 0.3;
               mkObs 2 "breakfast" 7.6 27 "kitchen" 1.1] (init 0.98))
    as (st & E & _); [apply nonneg_init; lra|].
  exists st. split; [exact E|]. intros p G.
  refine ((fun H => conj (proj1 H) (proj1 (proj2 H)))
            (learned_means_stay_within_samples "breakfast"
               (7.4, 7.6) (23, 27) (1, 2) _ (init 0.98) st _ _ E p G)).
  - intros q Hq. discriminate Hq.
  - constructor; [intros _; simpl; lra|].
    constructor; [intros H; discriminate H|].
    constructor; [intros _; simpl; lra|]. constructor.
Defined.

Lemma decay_pattern_same_learned (d : R) (p : ActivityPattern) :
  same_learned p (decay_pattern d p).
Proof.
  unfold same_learned. simpl. repeat split. apply keys_map_values.
Qed.

(** X6.  Observations of other activity types, and the decay they bring,
    never alter what a pattern has learned: its means, standard deviations,
    update time and set of zones stay as they are; only its counter, its
    stability and its zone frequencies fade. *)
Theorem other_types_leave_learned_values
    (b : string) (p : ActivityPattern) (os : list observation)
    (st st' : store) :
  get_pattern st b = Some p ->
  Forall (fun o => o_activity o <> b) os ->
  observe_all st os = Returns st' ->
  exists p', get_pattern st' b = Some p' /\ same_learned p p'.
Proof.
  intros Hp Hall. revert st p Hp.
  induction Hall as [|o os Ho Hos IH]; intros st p Hp; simpl.
  - intros [= <-]. exists p. split; [exact Hp|].
    unfold same_learned. repeat split.
  - unfold observe.
    destruct (observe_activity st _ _ _ _ _ _) as [st1|] eqn:E; [|discriminate].
    intros Hrest.
    assert (H1 : get_pattern st1 b = Some (decay_pattern (decay_factor st) p)).
    { rewrite (observe_activity_untouched _ _ _ _ b _ _ _ _ E), Hp; auto. }
    destruct (IH st1 _ H1 Hrest) as (p' & Hp' & Hsame).
    exists p'. split; [exact Hp'|].
    pose proof (decay_pattern_same_learned (decay_factor st) p) as H0.
    unfold same_learned in *.
    destruct H0 as (A1 & A2 & A3 & A4 & A5 & A6 & A7 & A8 & A9).
    destruct Hsame as (B1 & B2 & B3 & B4 & B5 & B6 & B7 & B8 & B9).
    repeat split; congruence.
Qed.

Lemma other_types_witness :
  let tea :=
    mkActivity "tea" (mkTemporal 16 1 10 2 0 0.2 0 4)
      (mkSpatial [("kitchen"%string, 1)] 1 0 []) 0 0 in
  let st := mkStore [("tea"%string, tea)] 0.5 0 in
  exists st' p',
    observe_all st [mkObs 1 "nap" 14 60 "bedroom" 0.25] = Returns st' /\
    get_pattern st' "tea" = Some p' /\
    active_hours_mean (temporal p') = 16 /\
    active_hours_std (temporal p') = 1.
Proof.
  intros tea st.
  destruct (observe_all_nonneg [mkObs 1 "nap" 14 60 "bedroom" 0.25] st)
    as (st' & E & _).
  { split; simpl; [lra|]. repeat constructor. simpl. lra. }
  assert (Hothers : Forall (fun o => o_activity o <> "tea"%string)
                      [mkObs 1 "nap" 14 60 "bedroom" 0.25])
    by (repeat constructor; discriminate).
  destruct (other_types_leave_learned_values "tea" tea _ st st' eq_refl
              Hothers E)
    as (p' & Hp' & _ & Hm & Hs & _).
  exists st', p'. auto.
Defined.

(** X7.  The only failure of [observe_activity] is the division by a zero
    total in the normalisation, which happens exactly when the zone counters
    of the pattern sum to -1 before the call.  The store is then left half
    updated: the pattern is stored with its hour and duration statistics
    and its zone counter already changed, while nothing is normalised or
    decayed, the speed statistics and every other pattern are as before and
    [total_observations] is not incremented. *)
Theorem observe_activity_raises_iff (st : store) (now : Z) (a : string)
    (hour dur : R) (z : string) (speed : R) :
  ((exists e st', observe_activity st now a hour dur z speed = Raises e st')
   <-> zone_sum (fetch now st a) + 1 = 0) /\
  (forall e st',
     observe_activity st now a hour dur z speed = Raises e st' ->
     total_observations st' = total_observations st /\
     decay_factor st' = decay_factor st /\
     (forall b, b <> a -> get_pattern st' b = get_pattern st b) /\
     exists p',
       get_pattern st' a = Some p' /\
       temporal p' =
         _update_temporal_pattern now (temporal (fetch now st a)) hour dur /\
       zone_frequencies (spatial p') =
         bump_zone z (zone_frequencies (spatial (fetch now st a))) /\
       movement_speed_mean (spatial p') =
         movement_speed_mean (spatial (fetch now st a)) /\
       movement_speed_std (spatial p') =
         movement_speed_std (spatial (fetch now st a))).
Proof.
  unfold observe_activity, _update_spatial_pattern, zone_sum.
  rewrite bump_zone_sum.
  destruct (Req_dec_T (sum _ + 1) 0) as [E0|E0]; split.
  - split; [intros _; exact E0 | intros _; eauto].
  - intros e st' H. inversion H; subst. unfold put, get_pattern. simpl.
    split; [reflexivity|]. split; [reflexivity|].
    split; [intros b Hb; now apply dict_get_set_other|].
    rewrite dict_get_set_same. eexists. split; [reflexivity|].
    simpl. auto.
  - split; [intros (e & st' & H); discriminate H | contradiction].
  - intros e st' H. discriminate H.
Qed.

Lemma observe_activity_raises_witness :
  exists st1,
    observe_activity (init (-1)) 0 "x" 7 20 "kitchen" 1 = Returns st1 /\
    exists e st2,
      observe_activity st1 1 "x" 9 30 "hall" 2 = Raises e st2 /\
      total_observations st2 = 1%Z.
Proof.
  eexists. split; [run_observe; reflexivity|].
  match goal with
  | |- exists e st2, observe_activity ?st1 _ _ _ _ _ _ = _ /\ _ =>
      destruct (observe_activity_raises_iff st1 1 "x" 9 30 "hall" 2)
        as [Hiff Hstate]
  end.
  destruct (proj2 Hiff) as (e & st2 & E).
  - unfold zone_sum, fetch, sum. cbn. lra.
  - exists e, st2. split; [exact E|].
    destruct (Hstate e st2 E) as (Ht & _). rewrite Ht. reflexivity.
Defined.

Lemma freq_le_sum (zf : Dict.t R) (k : string) (f : R) :
  freqs_nonneg zf -> Dict.get k zf = Some f -> f <= sum (Dict.values zf).
Proof.
  unfold freqs_nonneg, Dict.values.
  induction 1 as [|[k' v] zf Hv Hzf IH]; simpl; [discriminate|].
  rewrite sum_cons. simpl in Hv.
  pose proof (sum_nonneg (map snd zf)) as Hs.
  assert (0 <= sum (map snd zf)).
  { apply Hs. rewrite Forall_map. exact Hzf. }
  destruct (String.eqb k k').
  - intros [= ->]. lra.
  - intros G. specialize (IH G). lra.
Qed.

Lemma bump_zone_get (z : string) (zf : Dict.t R) :
  freqs_nonneg zf ->
  exists g, Dict.get z (bump_zone z zf) = Some g /\ 1 <= g.
Proof.
  intros H. unfold bump_zone. destruct (Dict.get z zf) as [f|] eqn:G.
  - exists (f + 1). rewrite dict_get_set_same. split; [reflexivity|].
    pose proof (freqs_nonneg_get _ _ _ H G). lra.
  - exists 1. rewrite dict_get_set_same. split; [reflexivity | lra].
Qed.

(** X8.  On a store without negative decay factor or frequencies, after a
    call every zone frequency of the touched pattern lies between 0 and
    [d], and the zone just observed holds at least [d / (s + 1)], where [s]
    is the sum of the pattern's frequencies before the call: the latest
    zone always keeps a share that older observations cannot push down. *)
Theorem observed_zone_keeps_its_share (st st' : store) (now : Z) (a : string)
    (hour dur : R) (z : string) (speed : R) :
  nonneg_store st ->
  observe_activity st now a hour dur z speed = Returns st' ->
  exists p' f,
    get_pattern st' a = Some p' /\
    (forall k g, Dict.get k (zone_frequencies (spatial p')) = Some g ->
       0 <= g <= decay_factor st) /\
    Dict.get z (zone_frequencies (spatial p')) = Some f /\
    decay_factor st / (zone_sum (fetch now st a) + 1) <= f.
Proof.
  intros Hst E.
  pose proof (fetch_freqs_nonneg st now a Hst) as Hf.
  pose proof (freqs_nonneg_sum _ Hf) as Hsum.
  destruct Hst as [Hd _].
  destruct (observe_activity_touched _ _ _ _ _ _ _ _ E) as (s' & Hs & Hp).
  destruct (observe_activity_zone_sum _ _ _ _ _ _ _ _ E) as (p0 & Hp0 & _ & Hz).
  rewrite Hp in Hp0. injection Hp0 as <-.
  destruct (update_spatial_zones _ _ _ _ Hs) as [Ht Hzf].
  destruct (bump_zone_get z _ Hf) as (g & Hg & Hg1).
  eexists. exists (g / (zone_sum (fetch now st a) + 1) * decay_factor st).
  split; [exact Hp|]. simpl.
  assert (Hnn : freqs_nonneg
                  (Dict.map_values (fun f => f * decay_factor st)
                     (zone_frequencies s'))).
  { apply freqs_nonneg_scale; [exact Hd|]. rewrite Hzf.
    apply freqs_nonneg_div; [lra|]. now apply freqs_nonneg_bump. }
  split; [|split].
  - intros k g0 Hk. split; [exact (freqs_nonneg_get _ _ _ Hnn Hk)|].
    pose proof (freq_le_sum _ _ _ Hnn Hk) as Hle.
    unfold zone_sum in Hz. simpl in Hz. lra.
  - rewrite Hzf, !dict_get_map_values, Hg. reflexivity.
  - unfold zone_sum. unfold Rdiv.
    set (t := / (sum (Dict.values (zone_frequencies
                                     (spatial (fetch now st a)))) + 1)).
    assert (Ht0 : 0 < t) by (apply Rinv_0_lt_compat; lra).
    assert (Hdt : 0 <= decay_factor st * t) by nra.
    replace (g * t * decay_factor st) with (g * (decay_factor st * t)) by ring.
    nra.
Qed.

Lemma observed_zone_witness :
  exists st' p' f,
    observe_activity (init 0.95) 0 "cooking" 12 30 "kitchen" 1.2
      = Returns st' /\
    get_pattern st' "cooking" = Some p' /\
    Dict.get "kitchen" (zone_frequencies (spatial p')) = Some f /\
    0.95 / (0 + 1) <= f.
Proof.
  destruct (observe_activity_nonneg (init 0.95) 0 "cooking" 12 30 "kitchen"
              1.2) as (st' & E & _); [apply nonneg_init; lra|].
  destruct (observed_zone_keeps_its_share _ _ _ _ _ _ _ _
              (nonneg_init 0.95 ltac:(lra)) E) as (p' & f & Hp & _ & Hg & Hf).
  exists st', p', f. repeat split; assumption.
Defined.

End PatternMemoryMore.

(** ** Ephemeral identities: further properties of the code *)

Module IdentityMore.
Import Identity IdentityFacts.

Lemma sq_distance_terms (a b : BehavioralFeatures) :
  sq_distance a b =
    ((movement_speed a - movement_speed b) * 2) ^ 2
    + ((height_estimate a - height_estimate b) * 2) ^ 2
    + (encode time_encoding (activity_time a)
       - encode time_encoding (activity_time b)) ^ 2
    + (encode zone_encoding (interaction_zone a)
       - encode zone_encoding (interaction_zone b)) ^ 2
    + (encode pattern_encoding (movement_pattern a)
       - encode pattern_encoding (movement_pattern b)) ^ 2.
Proof. unfold sq_distance, sum. cbn. ring. Qed.

Lemma sq_distance_nonneg (a b : BehavioralFeatures) : 0 <= sq_distance a b.
Proof.
  rewrite sq_distance_terms.
  repeat apply Rplus_le_le_0_compat; apply pow2_ge_0.
Qed.

Lemma similarity_above (a b : BehavioralFeatures) (t : R) :
  0 <= t -> t < calculate_similarity a b ->
  sqrt (sq_distance a b) < 10 * (1 - t).
Proof.
  intros Ht. rewrite calculate_similarity_unfold. unfold Rmax.
  destruct (Rle_dec 0 (1 - sqrt (sq_distance a b) / 10)); lra.
Qed.

Lemma square_below_sqrt (c s r : R) :
  c ^ 2 <= s -> sqrt s < r -> Rabs c < r.
Proof.
  intros Hc Hs. apply Rle_lt_trans with (sqrt s); [|exact Hs].
  rewrite <- sqrt_Rsqr_abs. apply sqrt_le_1_alt. unfold Rsqr. lra.
Qed.

Lemma square_zero (x : R) : x ^ 2 = 0 -> x = 0.
Proof.
  intros H. destruct (Req_dec x 0) as [E|E]; [exact E|].
  exfalso. exact (pow_nonzero x 2 E H).
Qed.

Lemma five_squares_zero (x1 x2 x3 x4 x5 : R) :
  x1 ^ 2 + x2 ^ 2 + x3 ^ 2 + x4 ^ 2 + x5 ^ 2 = 0 ->
  x1 = 0 /\ x2 = 0 /\ x3 = 0 /\ x4 = 0 /\ x5 = 0.
Proof.
  intros H.
  pose proof (pow2_ge_0 x1). pose proof (pow2_ge_0 x2).
  pose proof (pow2_ge_0 x3). pose proof (pow2_ge_0 x4).
  pose proof (pow2_ge_0 x5).
  repeat split; apply square_zero; lra.
Qed.

(** X9.  The similarity is 1 exactly when the two records have the same
    speed, the same height and the same three category codes.  A label that
    the encoding tables do not know is coded 0, like "morning", "kitchen"
    and "steady": such a record cannot be told from one with the first
    label. *)
Theorem similarity_one_iff_same_codes :
  (forall a b,
     calculate_similarity a b = 1 <->
     movement_speed a = movement_speed b /\
     height_estimate a = height_estimate b /\
     encode time_encoding (activity_time a)
       = encode time_encoding (activity_time b) /\
     encode zone_encoding (interaction_zone a)
       = encode zone_encoding (interaction_zone b) /\
     encode pattern_encoding (movement_pattern a)
       = encode pattern_encoding (movement_pattern b)) /\
  (forall label,
     (Dict.get label time_encoding = None ->
      encode time_encoding label = encode time_encoding "morning") /\
     (Dict.get label zone_encoding = None ->
      encode zone_encoding label = encode zone_encoding "kitchen") /\
     (Dict.get label pattern_encoding = None ->
      encode pattern_encoding label = encode pattern_encoding "steady")).
Proof.
  split.
  - intros a b. rewrite calculate_similarity_unfold. split.
    + intros H.
      assert (Hs : sqrt (sq_distance a b) = 0).
      { pose proof (sqrt_pos (sq_distance a b)). unfold Rmax in H.
        destruct (Rle_dec 0 (1 - sqrt (sq_distance a b) / 10)); lra. }
      apply sqrt_eq_0 in Hs; [|apply sq_distance_nonneg].
      rewrite sq_distance_terms in Hs.
      destruct (five_squares_zero _ _ _ _ _ Hs) as (Z1 & Z2 & Z3 & Z4 & Z5).
      repeat split; lra.
    + intros (H1 & H2 & H3 & H4 & H5).
      replace (sq_distance a b) with 0
        by (rewrite sq_distance_terms, H1, H2, H3, H4, H5; ring).
      rewrite sqrt_0. replace (1 - 0 / 10) with 1 by lra.
      apply Rmax_right. lra.
  - intros label. unfold encode. repeat split; intros ->; reflexivity.
Qed.

Lemma similarity_one_witness :
  calculate_similarity
    (mkFeatures 1.2 1.75 "dawn" "garage" "steady")
    (mkFeatures 1.2 1.75 "morning" "kitchen" "steady") = 1.
Proof.
  apply (proj1 similarity_one_iff_same_codes). simpl. repeat split.
Defined.

(** X10.  A similarity above a threshold [t >= 0] bounds every component:
    the speeds and the heights differ by less than [5 * (1 - t)] and each
    pair of category codes by less than [10 * (1 - t)].  With the default
    threshold 0.85 a match needs speeds within 0.75 m/s and codes less than
    1.5 apart. *)
Theorem similarity_above_threshold_bounds
    (a b : BehavioralFeatures) (t : R) :
  0 <= t ->
  t < calculate_similarity a b ->
  Rabs (movement_speed a - movement_speed b) < 5 * (1 - t) /\
  Rabs (height_estimate a - height_estimate b) < 5 * (1 - t) /\
  Rabs (encode time_encoding (activity_time a)
        - encode time_encoding (activity_time b)) < 10 * (1 - t) /\
  Rabs (encode zone_encoding (interaction_zone a)
        - encode zone_encoding (interaction_zone b)) < 10 * (1 - t) /\
  Rabs (encode pattern_encoding (movement_pattern a)
        - encode pattern_encoding (movement_pattern b)) < 10 * (1 - t).
Proof.
  intros Ht Hsim. pose proof (similarity_above a b t Ht Hsim) as Hs.
  pose proof (sq_distance_terms a b) as Hterms.
  set (x1 := movement_speed a - movement_speed b) in *.
  set (x2 := height_estimate a - height_estimate b) in *.
  set (x3 := encode time_encoding (activity_time a)
             - encode time_encoding (activity_time b)) in *.
  set (x4 := encode zone_encoding (interaction_zone a)
             - encode zone_encoding (interaction_zone b)) in *.
  set (x5 := encode pattern_encoding (movement_pattern a)
             - encode pattern_encoding (movement_pattern b)) in *.
  assert (H1 : Rabs (x1 * 2) < 10 * (1 - t))
    by (apply (square_below_sqrt _ (sq_distance a b)); [nra | exact Hs]).
  assert (H2 : Rabs (x2 * 2) < 10 * (1 - t))
    by (apply (square_below_sqrt _ (sq_distance a b)); [nra | exact Hs]).
  rewrite Rabs_mult, (Rabs_pos_eq 2) in H1, H2 by lra.
  repeat split; try lra;
    apply (square_below_sqrt _ (sq_distance a b)); try exact Hs; nra.
Qed.

Lemma similarity_bounds_witness :
  let a := mkFeatures 1.2 1.75 "morning" "kitchen" "steady" in
  Rabs (movement_speed a - movement_speed a) < 5 * (1 - 0.85).
Proof.
  intros a.
  apply (similarity_above_threshold_bounds a a 0.85); [lra|].
  rewrite similarity_self. lra.
Defined.

Lemma similarity_to_le_1 (f : BehavioralFeatures) (p : EntityProfile) :
  similarity_to f p <= 1.
Proof.
  unfold similarity_to. destruct (typical_features p); [|lra].
  apply similarity_bounds.
Qed.

(** X11.  Whatever the threshold, a call that reports an existing entity
    has matched a stored profile that is not expired, has features, and
    whose similarity to the record is above both the threshold and zero:
    an expired profile is never re-identified. *)
Theorem detect_entity_match_is_sound (m m' : manager) (now : Z)
    (token : string) (features : BehavioralFeatures) (eid : string) :
  detect_entity m now token features = (m', (eid, false)) ->
  exists p tf,
    In (eid, p) (entities m) /\
    is_expired now p (expiry_days m) = false /\
    typical_features p = Some tf /\
    similarity_threshold m < calculate_similarity features tf /\
    0 < calculate_similarity features tf.
Proof.
  intros E.
  destruct (detect_entity_cases m now token features)
    as [(e0 & p0 & Hf & _ & _ & E')|[_ E']]; rewrite E' in E;
    [|discriminate].
  injection E as _ ->. unfold find_matching_entity in Hf.
  destruct (scan_spec m now features (entities m) (None, 0))
    as [[Hr _]|(l1 & [k p] & l2 & Hes & Hr & Hok & Ht & H0 & _)];
    rewrite Hr in Hf; simpl in Hf; [discriminate|].
  injection Hf as ->. simpl in *.
  unfold eligible in Hok. apply andb_true_iff in Hok. destruct Hok as [He Hs].
  unfold similarity_to in *.
  destruct (typical_features p) as [tf|] eqn:T; [|discriminate].
  exists p, tf. split; [rewrite Hes; apply in_elt|].
  split; [now apply negb_true_iff|]. auto.
Qed.

Lemma detect_entity_match_witness :
  let f := mkFeatures 1.2 1.75 "morning" "kitchen" "steady" in
  let p := mkProfile "entity_a" 0 0 1 (Some f) 0.1 in
  let m := mkManager [("entity_a"%string, p)] 0.85 30 in
  exists q tf,
    In ("entity_a"%string, q) (entities m) /\
    is_expired 1 q 30 = false /\
    typical_features q = Some tf /\
    0.85 < calculate_similarity f tf /\
    0 < calculate_similarity f tf.
Proof.
  intros f p m.
  apply (detect_entity_match_is_sound m
           (with_entities m
              (Dict.set "entity_a" (update 1 p f) (entities m)))
           1 "b" f "entity_a").
  apply (detect_entity_matched m 1 "b" f "entity_a" p);
    [|reflexivity|reflexivity].
  unfold find_matching_entity, scan.
  cbn [m entities similarity_threshold expiry_days fold_left].
  unfold scan_step. cbn [snd fst typical_features p].
  replace (is_expired 1 _ 30) with false by reflexivity.
  rewrite similarity_self.
  destruct (Rlt_dec 0 1); [|lra].
  destruct (Rlt_dec 0.85 1); [reflexivity | lra].
Defined.

(** X12.  With a threshold of 1 or more no profile can match, since no
    similarity exceeds 1: every call creates a new entity under the
    generated id. *)
Theorem detect_entity_threshold_one_never_matches (m : manager) (now : Z)
    (token : string) (features : BehavioralFeatures) :
  1 <= similarity_threshold m ->
  find_matching_entity m now features = None /\
  snd (detect_entity m now token features)
    = (generate_entity_id token, true) /\
  get_entity_info (fst (detect_entity m now token features))
    (generate_entity_id token)
    = Some (mkProfile (generate_entity_id token) now now 1 (Some features)
              0.1).
Proof.
  intros Hthr.
  assert (Hf : find_matching_entity m now features = None).
  { unfold find_matching_entity.
    destruct (scan_spec m now features (entities m) (None, 0))
      as [[-> _]|(l1 & e & l2 & _ & _ & _ & Ht & _)]; [reflexivity|].
    pose proof (similarity_to_le_1 features (snd e)). lra. }
  split; [exact Hf|].
  destruct (detect_entity_cases m now token features)
    as [(e0 & p0 & Hf' & _)|[_ ->]]; [congruence|].
  unfold detect_new, get_entity_info. cbn [fst snd entities with_entities].
  split; [reflexivity | apply dict_get_set_same].
Qed.

Lemma detect_entity_threshold_one_witness :
  let f := mkFeatures 1.2 1.75 "morning" "kitchen" "steady" in
  let p := mkProfile "entity_a" 0 0 1 (Some f) 0.1 in
  let m := mkManager [("entity_a"%string, p)] 1 30 in
  snd (detect_entity m 1 "b" f) = ("entity_b"%string, true).
Proof.
  intros f p m.
  destruct (detect_entity_threshold_one_never_matches m 1 "b" f)
    as (_ & H & _); [simpl; lra | exact H].
Defined.

Lemma is_expired_later (now now' : Z) (p : EntityProfile) (expiry : Z) :
  (now <= now')%Z ->
  is_expired now p expiry = true -> is_expired now' p expiry = true.
Proof. rewrite !is_expired_iff. lia. Qed.




(** X14.  [detect_entity] never removes or reorders an id and adds at most
    one, at the end, and only when it reports a new entity;
    [cleanup_expired_entities] adds none; neither changes the threshold
    or the expiry period. *)
Theorem registry_ids_and_configuration (m : manager) (now : Z)
    (token : string) (features : BehavioralFeatures) :
  let m' := fst (detect_entity m now token features) in
  let r := snd (detect_entity m now token features) in
  (Dict.keys (entities m') = Dict.keys (entities m) \/
   (snd r = true /\ ~ In (fst r) (Dict.keys (entities m)) /\
    Dict.keys (entities m') = (Dict.keys (entities m) ++ [fst r])%list)) /\
  similarity_threshold m' = similarity_threshold m /\
  expiry_days m' = expiry_days m /\
  (forall k,
     In k (Dict.keys (entities (fst (cleanup_expired_entities m now)))) ->
     In k (Dict.keys (entities m))) /\
  similarity_threshold (fst (cleanup_expired_entities m now))
    = similarity_threshold m /\
  expiry_days (fst (cleanup_expired_entities m now)) = expiry_days m.
Proof.
  cbv zeta. split; [|split; [|split; [|split; [|split]]]].
  - destruct (detect_entity_cases m now token features)
      as [(e0 & p0 & _ & _ & Hg & ->)|[_ ->]];
      unfold detect_new; cbn [fst snd entities with_entities].
    + left. exact (dict_keys_set_present _ _ _ _ Hg).
    + destruct (keys_set (generate_entity_id token)
                  (new_profile now (generate_entity_id token) features)
                  (entities m)) as [H|[Hn H]]; [left|right]; auto.
  - destruct (detect_entity_cases m now token features)
      as [(e0 & p0 & _ & _ & _ & ->)|[_ ->]]; reflexivity.
  - destruct (detect_entity_cases m now token features)
      as [(e0 & p0 & _ & _ & _ & ->)|[_ ->]]; reflexivity.
  - unfold cleanup_expired_entities. cbn [fst entities with_entities].
    generalize (map fst (filter (fun e => is_expired now (snd e)
                                            (expiry_days m)) (entities m))).
    intros ks. generalize (entities m). induction ks as [|k0 ks IH];
      intros es k; simpl; [auto|].
    intros H. specialize (IH _ _ H). clear H. revert IH.
    induction es as [|[k1 v1] es IHes]; simpl; [auto|].
    destruct (String.eqb k0 k1); simpl; [auto|]. intros [H|H]; auto.
  - reflexivity.
  - reflexivity.
Qed.

Lemma registry_ids_witness :
  let old := mkProfile "old_entity" 0 0 5 None 0 in
  let m := mkManager [("old_entity"%string, old)] 0.85 30 in
  In "old_entity"%string (Dict.keys (entities m)).
Proof.
  intros old m.
  destruct (registry_ids_and_configuration m 0 "a"
              (mkFeatures 1.2 1.75 "morning" "kitchen" "steady"))
    as (_ & _ & _ & Hsub & _).
  apply Hsub. simpl. now left.
Defined.

Lemma filter_none {A : Type} (f : A -> bool) (l : list A) :
  (forall x, In x l -> f x = false) -> filter f l = [].
Proof.
  induction l as [|x l IH]; simpl; intros H; [reflexivity|].
  rewrite (H x (or_introl eq_refl)). apply IH. auto.
Qed.

(** X15.  [cleanup_expired_entities] is idempotent at a given time: a
    second call removes nothing and returns 0.  More generally a call on a
    registry without expired profiles returns 0 and leaves the entries as
    they are. *)
Theorem cleanup_expired_entities_idempotent (m : manager) (now : Z) :
  ((forall e, In e (entities m) ->
      is_expired now (snd e) (expiry_days m) = false) ->
   entities (fst (cleanup_expired_entities m now)) = entities m /\
   snd (cleanup_expired_entities m now) = 0%nat) /\
  (NoDup (Dict.keys (entities m)) ->
   let m1 := fst (cleanup_expired_entities m now) in
   entities (fst (cleanup_expired_entities m1 now)) = entities m1 /\
   snd (cleanup_expired_entities m1 now) = 0%nat).
Proof.
  assert (Hclean : forall m0,
            (forall e, In e (entities m0) ->
               is_expired now (snd e) (expiry_days m0) = false) ->
            entities (fst (cleanup_expired_entities m0 now)) = entities m0 /\
            snd (cleanup_expired_entities m0 now) = 0%nat).
  { intros m0 H. unfold cleanup_expired_entities.
    rewrite (filter_none _ _ H). simpl. auto. }
  split; [apply Hclean|].
  intros Hnd m1. apply Hclean. unfold m1.
  rewrite (cleanup_entities m now Hnd). intros e He.
  apply filter_In in He. destruct He as [_ He].
  now apply negb_true_iff in He.
Qed.

Lemma cleanup_idempotent_witness :
  let old := mkProfile "old_entity" 0 0 5 None 0 in
  let recent := mkProfile "recent_entity" (35 * day) (35 * day) 3 None 0 in
  let m :=
    mkManager [("old_entity"%string, old); ("recent_entity"%string, recent)]
      0.85 30 in
  snd (cleanup_expired_entities m (35 * day)) = 1%nat /\
  snd (cleanup_expired_entities
         (fst (cleanup_expired_entities m (35 * day))) (35 * day)) = 0%nat.
Proof.
  intros old recent m. split; [reflexivity|].
  destruct (cleanup_expired_entities_idempotent m (35 * day)) as [_ H].
  apply H. simpl. repeat constructor; simpl; [|tauto].
  intros [E|[]]. discriminate E.
Defined.

(** X16.  Expiry only moves forward with the clock: a profile expired at
    some time is expired at every later time.  And with a non-negative
    expiry period the entity that [detect_entity] returns, matched or new,
    is never expired at the time of the call, its [last_seen] being that
    time. *)
Theorem expiry_moves_forward_and_detection_refreshes :
  (forall now now' p expiry,
     (now <= now')%Z ->
     is_expired now p expiry = true -> is_expired now' p expiry = true) /\
  (forall m now token features,
     (0 <= expiry_days m)%Z ->
     exists p,
       get_entity_info (fst (detect_entity m now token features))
         (fst (snd (detect_entity m now token features))) = Some p /\
       last_seen p = now /\
       is_expired now p (expiry_days m) = false).
Proof.
  split; [apply is_expired_later|].
  intros m now token f Hexp. unfold get_entity_info.
  destruct (detect_entity_cases m now token f)
    as [(e0 & p0 & _ & _ & _ & ->)|[_ ->]];
    unfold detect_new; cbn [fst snd entities with_entities];
    rewrite dict_get_set_same; eexists; (split; [reflexivity|]);
    (split; [reflexivity|]); apply is_expired_false_iff; simpl;
    unfold day; lia.
Qed.

Lemma expiry_witness :
  let p := mkProfile "entity_a" 0 0 1 None 0.1 in
  is_expired (40 * day) p 30 = true.
Proof.
  intros p.
  apply (proj1 expiry_moves_forward_and_detection_refreshes
           (31 * day)%Z (40 * day)%Z p 30%Z).
  - unfold day. lia.
  - reflexivity.
Defined.

Lemma reachable_filed (m : manager) :
  reachable m ->
  Forall (fun e => entity_id (snd e) = fst e /\
                   typical_features (snd e) <> None) (entities m).
Proof.
  induction 1 as [thr exp | m now token f Hm IH | m now Hm IH].
  - constructor.
  - assert (Hset : forall k p,
              entity_id p = k -> typical_features p <> None ->
              Forall (fun e => entity_id (snd e) = fst e /\
                               typical_features (snd e) <> None)
                (Dict.set k p (entities m))).
    { intros k p Hk Hp. clear - IH Hk Hp.
      induction IH as [|[k' v] es Hv Hes IHes]; simpl.
      - constructor; [simpl; auto | constructor].
      - destruct (String.eqb k k'); constructor; simpl; auto. }
    destruct (detect_entity_cases m now token f)
      as [(eid & p & _ & _ & Hg & ->)|[_ ->]];
      unfold detect_new; cbn [fst entities with_entities]; apply Hset.
    + apply dict_get_In in Hg. rewrite Forall_forall in IH.
      exact (proj1 (IH _ Hg)).
    + unfold update. simpl. discriminate.
    + reflexivity.
    + discriminate.
  - cbn. now apply Forall_dict_del_all.
Qed.

(** X17.  In every registry built by the operations each profile is filed
    under its own [entity_id] and has features, so none is skipped for
    lack of them; its confidence lies between 0.1 and 1 and is 1 exactly
    from the tenth observation on. *)
Theorem reachable_profiles_are_well_formed (m : manager) (eid : string)
    (p : EntityProfile) :
  reachable m ->
  get_entity_info m eid = Some p ->
  entity_id p = eid /\
  typical_features p <> None /\
  0.1 <= confidence p <= 1 /\
  (confidence p = 1 <-> (10 <= observation_count p)%Z).
Proof.
  intros Hm Hp. unfold get_entity_info in Hp.
  pose proof (dict_get_In _ _ _ Hp) as Hin.
  pose proof (reachable_filed m Hm) as Hf. rewrite Forall_forall in Hf.
  destruct (Hf _ Hin) as [Hid Htf]. simpl in Hid, Htf.
  destruct (dict_Forall_get confidence_ok _ _ _
              (reachable_confidence_ok m Hm) Hp) as [Hc H1].
  split; [exact Hid|]. split; [exact Htf|].
  apply IZR_le in H1. rewrite Hc. unfold Rmin.
  destruct (Rle_dec 1 (IZR (observation_count p) / 10)) as [L|L].
  - split; [lra|]. split; [intros _|reflexivity].
    apply le_IZR. lra.
  - split; [lra|]. split; [intros E; lra|].
    intros H10. apply IZR_le in H10. lra.
Qed.

Lemma reachable_profiles_witness :
  let f := mkFeatures 1.2 1.75 "morning" "kitchen" "steady" in
  let m := fst (detect_entity (init 0.85 30) 0 "a" f) in
  exists p,
    get_entity_info m "entity_a" = Some p /\
    entity_id p = "entity_a"%string /\
    0.1 <= confidence p <= 1.
Proof.
  intros f m. eexists. split; [reflexivity|].
  destruct (reachable_profiles_are_well_formed m "entity_a"
              (mkProfile "entity_a" 0 0 1 (Some f) 0.1))
    as (Hid & _ & Hc & _).
  - apply reach_detect. apply reach_init.
  - reflexivity.
  - split; [exact Hid | exact Hc].
Defined.

End IdentityMore.
